(** * Energy-consumption analyser: the aggregation engine of [streamlit_app.py]

    A shallow embedding of [load_data], [display_filtered_data],
    [plot_consumo_por_dia], [plot_consumo_horario_medio] and
    [plot_distribuicao_consumo], with the properties of the
    specification stated and settled against it.

    Modelling conventions.
    - A [datetime64[ns]] value is the integer number of nanoseconds since
      the epoch (time-zone naive); [.dt.date] and [.dt.hour] are the usual
      floor division and remainder.
    - The numeric columns of the frame are exact rationals ([Q]).  The
      program holds them as [float64]; what is proved about a total or a
      mean is therefore either an evaluation on values that [float64]
      holds exactly, or a statement for a column of any number type and
      whatever the reduction computes on it.  The rounding of [float64]
      itself is shown on primitive floats (module [F64]).
    - Strings are byte strings; case mapping and whitespace are the ASCII
      ones.
    - [pd.to_datetime] and [pd.to_numeric] with [errors='coerce'] are
      parameters of the loader: any column-wise coercion that yields one
      optional value per cell ([None] standing for [NaT]/[NaN]).
    - A pandas frame is mutable and shared: the plotting functions run in
      a state monad over the frame they receive, and the frame survives a
      raised exception. *)

From stdpp Require Import base option list sets strings sorting.
From Stdlib Require Import Ascii ZArith QArith Lia.
From Stdlib Require Import PrimFloat.
Close Scope Q_scope.

(** ** Python string methods used on the column names *)

Module Str.

Definition is_space (a : ascii) : bool :=
  let n := nat_of_ascii a in
  ((9 <=? n)%nat && (n <=? 13)%nat) || ((28 <=? n)%nat && (n <=? 32)%nat).

Definition upper_char (a : ascii) : ascii :=
  let n := nat_of_ascii a in
  if ((97 <=? n)%nat && (n <=? 122)%nat) then ascii_of_nat (n - 32) else a.

Definition lower_char (a : ascii) : ascii :=
  let n := nat_of_ascii a in
  if ((65 <=? n)%nat && (n <=? 90)%nat) then ascii_of_nat (n + 32) else a.

Fixpoint map_chars (f : ascii → ascii) (s : string) : string :=
  match s with
  | EmptyString => EmptyString
  | String a s' => String (f a) (map_chars f s')
  end.

Fixpoint lstrip (s : string) : string :=
  match s with
  | EmptyString => EmptyString
  | String a s' => if is_space a then lstrip s' else s
  end.

Fixpoint rstrip (s : string) : string :=
  match s with
  | EmptyString => EmptyString
  | String a s' =>
      match rstrip s' with
      | EmptyString => if is_space a then EmptyString else String a EmptyString
      | r => String a r
      end
  end.

(** [s.strip()] *)
Definition strip (s : string) : string := rstrip (lstrip s).

(** [s.replace(old, new)] for one-character [old] and [new] *)
Definition replace (old new : ascii) (s : string) : string :=
  map_chars (λ a, if Ascii.eqb a old then new else a) s.

(** [s.capitalize()] *)
Definition capitalize (s : string) : string :=
  match s with
  | EmptyString => EmptyString
  | String a s' => String (upper_char a) (map_chars lower_char s')
  end.

End Str.

(** ** Timestamps *)

Module Datetime.
Local Open Scope Z_scope.

(** nanoseconds since 1970-01-01 00:00:00 *)
Abbreviation Timestamp := Z (only parsing).
(** days since 1970-01-01 *)
Abbreviation Date := Z (only parsing).

Definition NS_PER_MINUTE : Z := 60 * 1000000000.
Definition NS_PER_HOUR : Z := 60 * NS_PER_MINUTE.
Definition NS_PER_DAY : Z := 24 * NS_PER_HOUR.

(** [ts.date()] / [series.dt.date] *)
Definition dt_date (t : Timestamp) : Date := t / NS_PER_DAY.

(** [series.dt.hour] *)
Definition dt_hour (t : Timestamp) : Z := (t mod NS_PER_DAY) / NS_PER_HOUR.

(** the day number of the civil date [y]-[m]-[d] (proleptic Gregorian) *)
Definition days_from_civil (y m d : Z) : Date :=
  let y' := if m <=? 2 then y - 1 else y in
  let era := y' / 400 in
  let yoe := y' - era * 400 in
  let mp := (m + 9) mod 12 in
  let doy := (153 * mp + 2) / 5 + d - 1 in
  let doe := yoe * 365 + yoe / 4 - yoe / 100 + doy in
  era * 146097 + doe - 719468.

(** [pd.Timestamp(year, month, day, hour, minute)] *)
Definition mk_timestamp (y m d hh mm : Z) : Timestamp :=
  days_from_civil y m d * NS_PER_DAY + hh * NS_PER_HOUR + mm * NS_PER_MINUTE.

(** What the callers pass as a bound of the date filter: a
    [datetime.date] (from [st.date_input]) or an already converted
    [Timestamp]. *)
Inductive DateLike : Type :=
| ADate (d : Date)
| ATimestamp (t : Timestamp).

(** [pd.to_datetime(x)] on a scalar: a date becomes its midnight. *)
Definition to_datetime_scalar (x : DateLike) : Timestamp :=
  match x with
  | ADate d => d * NS_PER_DAY
  | ATimestamp t => t
  end.

End Datetime.
Export Datetime.

(** ** Exceptions and the frame *)

Inductive Exception : Type :=
| KeyError (column : string)
| TypeError (msg : string)
| ValueError (msg : string)
| ParserError (msg : string).

(** Code that may raise: the exception or the value. *)
Global Instance raises_ret : MRet (sum Exception) := λ A a, inr a.
Global Instance raises_bind : MBind (sum Exception) := λ A B f m,
  match m with
  | inl e => inl e
  | inr a => f a
  end.

(** A cell as [pd.read_csv] delivers it. *)
Inductive Cell : Type :=
| CInt (z : Z)
| CFloat (q : Q)
| CStr (s : string)
| CNaN.

(** The frame read from the file: its columns in order, each with its
    label.  Labels may repeat once they have been normalised. *)
Abbreviation RawFrame := (list (string * list Cell)) (only parsing).

(** One row of the cleaned frame. *)
Record Row : Type := mkRow {
  Data_hora : Timestamp;
  Consumo_kwh : Q;
  Custo_total : Q
}.

(** The cleaned frame: the three required columns row by row, and the
    derived columns ['Dia'] and ['Hora'] that the plotting functions add. *)
Record DataFrame : Type := mkFrame {
  rows : list Row;
  Dia : option (list Date);
  Hora : option (list Z)
}.

Definition frame_of_rows (rs : list Row) : DataFrame :=
  {| rows := rs; Dia := None; Hora := None |}.

(** ** [load_data] *)

(** [st.error(...)] calls of the loader *)
Inductive StError : Type :=
| MissingColumns (required : list string)
| LoadFailed (e : Exception).

(** What [data[label]] evaluates to. *)
Inductive Selected : Type :=
| SSeries (cells : list Cell)
| SFrame (cols : list (string * list Cell)).

Definition columns (data : RawFrame) : list string := data.*1.

(** [data.columns = labels] *)
Definition set_columns (data : RawFrame) (labels : list string) : RawFrame :=
  zip labels (data.*2).

Definition normalize (col : string) : string :=
  Str.capitalize (Str.replace " " "_" (Str.strip col)).

Definition required_columns : list string :=
  ["Data/hora"; "Consumo_kwh"; "Custo_total"]%string.

(** [set(required).issubset(labels)] *)
Definition issubset (required labels : list string) : bool :=
  forallb (λ r, bool_decide (r ∈ labels)) required.

Definition labelled (label : string) (data : RawFrame) : RawFrame :=
  filter (λ c, c.1 = label) data.

(** [data[labels]]: every column carrying one of the labels, in the order
    of [labels]. *)
Definition select_columns (data : RawFrame) (labels : list string) : RawFrame :=
  flat_map (λ l, labelled l data) labels.

(** [data[label]]: a Series when the label is unique, a frame when it is
    repeated. *)
Definition getitem (data : RawFrame) (label : string) : Exception + Selected :=
  match labelled label data with
  | [] => inl (KeyError label)
  | [c] => inr (SSeries c.2)
  | cs => inr (SFrame cs)
  end.

(** [dropna(subset=[the three columns])] on the converted columns *)
Fixpoint dropna (t : list (option Timestamp)) (c k : list (option Q)) : list Row :=
  match t, c, k with
  | ot :: t', oc :: c', ok :: k' =>
      match ot, oc, ok with
      | Some a, Some b, Some d => mkRow a b d :: dropna t' c' k'
      | _, _, _ => dropna t' c' k'
      end
  | _, _, _ => []
  end.

Section Loader.

(** The two pandas coercions, column-wise, with [errors='coerce']. *)
Variable pd_to_datetime : list Cell → list (option Timestamp).
Variable pd_to_numeric : list Cell → list (option Q).

(** Both refuse the frame that a repeated label selects. *)
Definition to_datetime (arg : Selected) : Exception + list (option Timestamp) :=
  match arg with
  | SSeries cells => inr (pd_to_datetime cells)
  | SFrame _ => inl (ValueError "cannot assemble with duplicate keys")
  end.

Definition to_numeric (arg : Selected) : Exception + list (option Q) :=
  match arg with
  | SSeries cells => inr (pd_to_numeric cells)
  | SFrame _ => inl (TypeError "arg must be a list, tuple, 1-d array, or Series")
  end.

(** The [try] block from the check of the columns on, for the frame whose
    labels have been normalised. *)
Definition load_labelled (data : RawFrame)
  : Exception + (list StError * option DataFrame) :=
  if negb (issubset required_columns (columns data)) then
    inr ([MissingColumns required_columns], None)
  else
    let data := select_columns data required_columns in
    s ← getitem data "Data/hora";
    t ← to_datetime s;
    s ← getitem data "Consumo_kwh";
    c ← to_numeric s;
    s ← getitem data "Custo_total";
    k ← to_numeric s;
    inr ([], Some (frame_of_rows (dropna t c k))).

(** The body of the [try] block, after [pd.read_csv]. *)
Definition load_frame (data : RawFrame)
  : Exception + (list StError * option DataFrame) :=
  let data := set_columns data (normalize <$> columns data) in
  load_labelled data.

(** The uploaded file, as [pd.read_csv] sees it: it raises or yields a
    frame. *)
Definition UploadedFile : Type := Exception + RawFrame.

Definition load_data (uploaded_file : option UploadedFile)
  : list StError * option DataFrame :=
  match uploaded_file with
  | Some file =>
      match file ≫= load_frame with
      | inr result => result
      | inl e => ([LoadFailed e], None)
      end
  | None => ([], None)
  end.

End Loader.

(** ** Series and frame operations of the aggregation code *)

(** Boolean-mask selection [x[mask]], mask and values aligned row by row. *)
Fixpoint loc {A : Type} (mask : list bool) (l : list A) : list A :=
  match mask, l with
  | b :: mask', x :: l' => if b then x :: loc mask' l' else loc mask' l'
  | _, _ => []
  end.

(** [series.sum()]; the sum of no value is 0. *)
Definition Series_sum (l : list Q) : Q := foldr Qplus 0%Q l.

(** [series.mean()] of a group (never empty inside a groupby). *)
Definition Series_mean (l : list Q) : Q :=
  (Series_sum l / inject_Z (Z.of_nat (length l)))%Q.

(** [series.between(lo, hi)], both ends included *)
Definition between (lo hi : Z) (h : Z) : bool := (lo <=? h)%Z && (h <=? hi)%Z.

(** Put the value of one row into the group of its key; the groups stay
    ordered by key, each with its values in row order. *)
Fixpoint add_to_group {V : Type} (key : Z) (v : V) (groups : list (Z * list V))
  : list (Z * list V) :=
  match groups with
  | [] => [(key, [v])]
  | (k, g) :: rest =>
      if (key <? k)%Z then (key, [v]) :: groups
      else if (key =? k)%Z then (k, g ++ [v]) :: rest
      else (k, g) :: add_to_group key v rest
  end.

(** [frame.groupby(keys)[values]]: the groups, sorted by key. *)
Definition groupby {V : Type} (keys : list Z) (vals : list V) : list (Z * list V) :=
  foldl (λ groups kv, add_to_group kv.1 kv.2 groups) [] (zip keys vals).

(** [.sum()] and [.mean()] of the grouped values: a Series indexed by key *)
Definition agg {V : Type} (f : list V → V) (groups : list (Z * list V)) : list (Z * V) :=
  prod_map id f <$> groups.

Fixpoint argmax_from (best : Z * Q) (s : list (Z * Q)) : Z :=
  match s with
  | [] => best.1
  | kv :: s' => argmax_from (if Qle_bool kv.2 best.2 then best else kv) s'
  end.

(** [series.idxmax()]: the label of the first maximum; raises on an empty
    Series. *)
Definition idxmax (s : list (Z * Q)) : Exception + Z :=
  match s with
  | [] => inl (ValueError "attempt to get argmax of an empty sequence")
  | kv :: s' => inr (argmax_from kv s')
  end.

(** ** [display_filtered_data] *)

Definition display_filtered_data (data : DataFrame) (start_date end_date : DateLike)
  : DataFrame :=
  let mask :=
    (λ r, (to_datetime_scalar start_date <=? Data_hora r)%Z
          && (Data_hora r <=? to_datetime_scalar end_date)%Z) <$> rows data in
  {| rows := loc mask (rows data);
     Dia := loc mask <$> Dia data;
     Hora := loc mask <$> Hora data |}.

(** ** The plotting functions

    They receive the frame by reference and assign a column to it, so they
    are computations over the frame; the rendered chart is their result. *)

Definition App (A : Type) : Type := DataFrame → (Exception + A) * DataFrame.

Global Instance App_ret : MRet App := λ A a data, (inr a, data).
Global Instance App_bind : MBind App := λ A B f m data,
  match m data with
  | (inr a, data') => f a data'
  | (inl e, data') => (inl e, data')
  end.

(** a step that may raise and leaves the frame alone *)
Definition eval {A : Type} (r : Exception + A) : App A := λ data, (r, data).

(** [data['Data/hora']] and [data['Consumo_kwh']] *)
Definition get_Data_hora : App (list Timestamp) :=
  λ data, (inr (Data_hora <$> rows data), data).
Definition get_Consumo_kwh : App (list Q) :=
  λ data, (inr (Consumo_kwh <$> rows data), data).

(** [data['Dia']], [data['Dia'] = v] and the same for ['Hora'] *)
Definition get_Dia : App (list Date) :=
  λ data, (from_option inr (inl (KeyError "Dia")) (Dia data), data).
Definition set_Dia (v : list Date) : App unit :=
  λ data, (inr (), {| rows := rows data; Dia := Some v; Hora := Hora data |}).
Definition get_Hora : App (list Z) :=
  λ data, (from_option inr (inl (KeyError "Hora")) (Hora data), data).
Definition set_Hora (v : list Z) : App unit :=
  λ data, (inr (), {| rows := rows data; Dia := Dia data; Hora := Some v |}).

(** What [plot_consumo_por_dia] renders: the bar chart of the daily totals
    and the line naming the day of the largest total. *)
Record DailyChart : Type := mkDailyChart {
  consumo_diario : list (Date * Q);
  dia_maior_consumo : Date
}.

Definition plot_consumo_por_dia : App DailyChart :=
  ts ← get_Data_hora;
  _ ← set_Dia (dt_date <$> ts);
  dia ← get_Dia;
  consumo ← get_Consumo_kwh;
  let consumo_diario := agg Series_sum (groupby dia consumo) in
  dia_maior_consumo ← eval (idxmax consumo_diario);
  mret (mkDailyChart consumo_diario dia_maior_consumo).

(** The line chart of [plot_consumo_horario_medio]: hour and mean. *)
Definition plot_consumo_horario_medio : App (list (Z * Q)) :=
  ts ← get_Data_hora;
  _ ← set_Hora (dt_hour <$> ts);
  hora ← get_Hora;
  consumo ← get_Consumo_kwh;
  let consumo_horario := agg Series_mean (groupby hora consumo) in
  mret consumo_horario.

(** The three band totals of [plot_distribuicao_consumo], for an ['Hora']
    column and a consumption column of any number type, [series_sum]
    being what [Series.sum] computes on such a column. *)
Definition band_totals {V : Type} (series_sum : list V → V)
    (hora : list Z) (consumo : list V) : list (string * V) :=
  let pico_consumo := series_sum (loc (between 18 23 <$> hora) consumo) in
  let noturno_consumo := series_sum (loc (between 0 5 <$> hora) consumo) in
  let outros_consumo :=
    (* the frame without the night rows, then the rows outside the peak:
       the second mask is aligned to the index of the first selection *)
    let not_night := negb ∘ between 0 5 <$> hora in
    let not_peak := negb ∘ between 18 23 <$> hora in
    series_sum (loc (loc not_night not_peak) (loc not_night consumo)) in
  let categorias := ["Pico (18h-23h)"; "Noturno (0h-5h)"; "Outros"] in
  let valores := [pico_consumo; noturno_consumo; outros_consumo] in
  zip categorias valores.

(** The bar chart of [plot_distribuicao_consumo]: category and total. *)
Definition plot_distribuicao_consumo : App (list (string * Q)) :=
  ts ← get_Data_hora;
  _ ← set_Hora (dt_hour <$> ts);
  hora ← get_Hora;
  consumo ← get_Consumo_kwh;
  mret (band_totals Series_sum hora consumo).

(** The three charts as [main] requests them, on one shared frame. *)
Definition plot_all : App (DailyChart * list (Z * Q) * list (string * Q)) :=
  daily ← plot_consumo_por_dia;
  hourly ← plot_consumo_horario_medio;
  bands ← plot_distribuicao_consumo;
  mret (daily, hourly, bands).

(** ** [float64] reductions

    What pandas computes on [float64] values, on primitive floats. *)

Module F64.

(** [Series.sum()] of a column of fewer than eight values: numpy adds such
    a column from left to right, starting from zero.  (A longer column is
    added in blocks; this definition does not cover it.) *)
Definition Series_sum (l : list PrimFloat.float) : PrimFloat.float :=
  foldl PrimFloat.add 0%float l.

(** [GroupBy.sum()] on one group: compensated summation, the running sum
    and the compensation being updated value by value. *)
Definition kahan_step (state : PrimFloat.float * PrimFloat.float) (val : PrimFloat.float)
  : PrimFloat.float * PrimFloat.float :=
  let y := PrimFloat.sub val state.2 in
  let t := PrimFloat.add state.1 y in
  let compensation := PrimFloat.sub (PrimFloat.sub t state.1) y in
  (t, if PrimFloat.eqb compensation compensation then compensation else 0%float).

Definition group_sum (l : list PrimFloat.float) : PrimFloat.float :=
  (foldl kahan_step (0%float, 0%float) l).1.

(** [GroupBy.mean()] on one group: the compensated sum divided by the
    number of values (counted up in [float64], exactly below 2^53). *)
Definition count (l : list PrimFloat.float) : PrimFloat.float :=
  foldl (λ n _, PrimFloat.add n 1%float) 0%float l.

Definition group_mean (l : list PrimFloat.float) : PrimFloat.float :=
  PrimFloat.div (group_sum l) (count l).

End F64.

(** ** Reference inputs *)

(** One instance of the two coercions, for the inputs below.  A timestamp
    cell is text of the form [YYYY-MM-DD HH:MM] naming a date that exists,
    or an integer count of nanoseconds; a numeric cell is a number.  Every
    other cell, the missing one included, is coerced to the missing
    value. *)
Definition digit (a : ascii) : option Z :=
  let n := Z.of_nat (nat_of_ascii a) in
  if (48 <=? n)%Z && (n <=? 57)%Z then Some (n - 48)%Z else None.

Definition two_digits (a b : ascii) : option Z :=
  x ← digit a; y ← digit b; Some (10 * x + y)%Z.

Definition is_leap (y : Z) : bool :=
  ((y mod 4 =? 0)%Z && negb (y mod 100 =? 0)%Z) || (y mod 400 =? 0)%Z.

Definition days_in_month (y m : Z) : Z :=
  if (m =? 2)%Z then (if is_leap y then 29 else 28)%Z
  else if (m =? 4)%Z || (m =? 6)%Z || (m =? 9)%Z || (m =? 11)%Z then 30%Z
  else 31%Z.

Definition parse_minute (s : string) : option Timestamp :=
  match String.list_ascii_of_string s with
  | [y1; y2; y3; y4; "-"; m1; m2; "-"; d1; d2; " "; h1; h2; ":"; n1; n2]%char =>
      c ← two_digits y1 y2; y ← two_digits y3 y4;
      m ← two_digits m1 m2; d ← two_digits d1 d2;
      hh ← two_digits h1 h2; mm ← two_digits n1 n2;
      let year := (100 * c + y)%Z in
      if (1 <=? m)%Z && (m <=? 12)%Z && (1 <=? d)%Z && (d <=? days_in_month year m)%Z
         && (hh <=? 23)%Z && (mm <=? 59)%Z
      then Some (mk_timestamp year m d hh mm)
      else None
  | _ => None
  end.

Definition datetime_of_cells (cells : list Cell) : list (option Timestamp) :=
  (λ c, match c with
        | CInt z => Some z
        | CStr s => parse_minute s
        | _ => None
        end) <$> cells.

Definition numeric_of_cells (cells : list Cell) : list (option Q) :=
  (λ c, match c with
        | CInt z => Some (inject_Z z)
        | CFloat q => Some q
        | _ => None
        end) <$> cells.

Definition jan_1 : Date := days_from_civil 2024 1 1.
Definition jan_2 : Date := days_from_civil 2024 1 2.

(** The three records of the end-to-end scenario. *)
Definition scenario_rows : list Row :=
  [ mkRow (mk_timestamp 2024 1 1 19 0) 5%Q 10%Q;
    mkRow (mk_timestamp 2024 1 1 2 0) 3%Q 6%Q;
    mkRow (mk_timestamp 2024 1 2 19 0) 4%Q 8%Q ].

Definition scenario : DataFrame := frame_of_rows scenario_rows.

(** The same three records as a file with the expected header. *)
Definition scenario_file : RawFrame :=
  [ ("Data/Hora",
      [CStr "2024-01-01 19:00"; CStr "2024-01-01 02:00"; CStr "2024-01-02 19:00"]);
    (" consumo kwh", [CInt 5; CInt 3; CInt 4]);
    ("Custo Total ", [CFloat 10%Q; CFloat 6%Q; CFloat 8%Q]) ].

(** A file without the cost column. *)
Definition no_cost_file : RawFrame :=
  [ ("Data/hora", [CStr "2024-01-01 19:00"; CStr "2024-01-01 20:00"]);
    ("Consumo_kwh", [CInt 5; CInt 7]);
    ("Tarifa", [CStr "A"; CStr "B"]) ].

(** Two readings, the second without its consumption, and a column that
    is not asked for. *)
Definition gappy_file : RawFrame :=
  [ ("Data/hora", [CStr "2024-01-01 19:00"; CStr "2024-01-01 20:00"]);
    (" consumo kwh ", [CFloat 5%Q; CNaN]);
    ("Tarifa", [CStr "A"; CStr "B"]);
    ("CUSTO_TOTAL", [CFloat 1%Q; CFloat 2%Q]) ].

(** One reading with a negative consumption. *)
Definition negative_file : RawFrame :=
  [ ("Data/hora", [CStr "2024-01-01 19:00"]);
    ("Consumo_kwh", [CInt (-5)]);
    ("Custo_total", [CFloat 10%Q]) ].

(** One well-formed reading in a file whose header names the cost twice
    once it is normalised. *)
Definition repeated_cost_file : RawFrame :=
  [ ("Data/hora", [CStr "2024-01-01 19:00"]);
    ("Consumo_kwh", [CInt 5]);
    ("Custo_total", [CFloat 10%Q]);
    ("custo total", [CFloat 10%Q]) ].

(** The same reading in a file with the three columns only. *)
Definition single_reading_file : RawFrame :=
  [ ("Data/hora", [CStr "2024-01-01 19:00"]);
    ("Consumo_kwh", [CInt 5]);
    ("Custo_total", [CFloat 10%Q]) ].

(** One reading in the evening of 2024-01-01. *)
Definition evening : DataFrame :=
  frame_of_rows [mkRow (mk_timestamp 2024 1 1 19 0) 5%Q 10%Q].

(** Three readings of 0.1, 0.2 and 0.3 kWh at 12:00, 19:00 and 02:00 of
    2024-01-01, and their consumption column as [float64] holds it: the
    doubles nearest to the three decimals. *)
Definition tenths : DataFrame :=
  frame_of_rows
    [ mkRow (mk_timestamp 2024 1 1 12 0) (1 # 10)%Q (2 # 10)%Q;
      mkRow (mk_timestamp 2024 1 1 19 0) (2 # 10)%Q (4 # 10)%Q;
      mkRow (mk_timestamp 2024 1 1 2 0) (3 # 10)%Q (6 # 10)%Q ].

Definition tenths_Consumo_kwh : list PrimFloat.float :=
  [ 1 / 10; 2 / 10; 3 / 10 ]%float.

(** The frame after normalising the labels, as the loader sees it. *)
Definition normalized (raw : RawFrame) : RawFrame :=
  set_columns raw (normalize <$> columns raw).

(** Row [i] was coerced to the record [r]. *)
Definition parsed_at (t : list (option Timestamp)) (c k : list (option Q))
    (i : nat) (r : Row) : Prop :=
  t !! i = Some (Some (Data_hora r)) ∧
  c !! i = Some (Some (Consumo_kwh r)) ∧
  k !! i = Some (Some (Custo_total r)).

(** The three hour bands, as the specification words them. *)
Inductive Band : Type := Peak | Night | Other.

Definition in_band (b : Band) (h : Z) : Prop :=
  match b with
  | Peak => (18 ≤ h ≤ 23)%Z
  | Night => (0 ≤ h ≤ 5)%Z
  | Other => (6 ≤ h ≤ 17)%Z
  end.

Global Instance in_band_dec b h : Decision (in_band b h).
Proof. destruct b; simpl; apply _. Defined.

(** The calendar day and the hour of the day of a timestamp, as the
    specification has them: [t] is on day [d] when it lies at least [d]
    and less than [d + 1] whole days after the epoch; it is at hour [h]
    when it lies at least [h] and less than [h + 1] whole hours after a
    midnight, [h] being one of the 24 hours. *)
Definition on_day (d : Date) (t : Timestamp) : Prop :=
  (d * NS_PER_DAY ≤ t < (d + 1) * NS_PER_DAY)%Z.

Global Instance on_day_dec d t : Decision (on_day d t).
Proof. unfold on_day. apply _. Defined.

Definition at_hour (h : Z) (t : Timestamp) : Prop :=
  (0 ≤ h < 24)%Z ∧
  ∃ d : Date,
    (d * NS_PER_DAY + h * NS_PER_HOUR ≤ t < d * NS_PER_DAY + (h + 1) * NS_PER_HOUR)%Z.

(** The consumption of a day, of an hour of the day and of a band: the
    values of the rows that belong to it, in row order.  The column
    [consumo] holds one value per timestamp, of any number type. *)
Definition day_values {V : Type} (d : Date) (data_hora : list Timestamp)
    (consumo : list V) : list V :=
  (filter (λ tv, on_day d tv.1) (zip data_hora consumo)).*2.

Definition hour_values {V : Type} (h : Z) (data_hora : list Timestamp)
    (consumo : list V) : list V :=
  (filter (λ tv, dt_hour tv.1 = h) (zip data_hora consumo)).*2.

Definition band_values {V : Type} (b : Band) (data_hora : list Timestamp)
    (consumo : list V) : list V :=
  (filter (λ tv, in_band b (dt_hour tv.1)) (zip data_hora consumo)).*2.

(** The Series of [plot_consumo_por_dia] and of
    [plot_consumo_horario_medio] for a timestamp column and a consumption
    column of any number type: the values grouped by the day, or by the
    hour, of their timestamp and reduced group by group, [group_sum] and
    [group_mean] being what [GroupBy.sum] and [GroupBy.mean] compute on
    the values of one group. *)
Definition daily_totals {V : Type} (group_sum : list V → V)
    (data_hora : list Timestamp) (consumo : list V) : list (Date * V) :=
  agg group_sum (groupby (dt_date <$> data_hora) consumo).

Definition hourly_means {V : Type} (group_mean : list V → V)
    (data_hora : list Timestamp) (consumo : list V) : list (Z * V) :=
  agg group_mean (groupby (dt_hour <$> data_hora) consumo).

(** The values grouped under one key: those of the rows with that key, in
    row order. *)
Definition values_at {V : Type} (k : Z) (kvs : list (Z * V)) : list V :=
  (filter (λ kv, kv.1 = k) kvs).*2.

(** ** [main] *)

(** [series.min()] and [series.max()] of a timestamp column; [None] is the
    [NaT] that an empty column yields. *)
Definition Series_min (l : list Z) : option Z :=
  foldr (λ x m, Some (from_option (Z.min x) x m)) None l.

Definition Series_max (l : list Z) : option Z :=
  foldr (λ x m, Some (from_option (Z.max x) x m)) None l.

(** The two date pickers of the first tab. *)
Inductive DateField : Type := StartDate | EndDate.

(** What the page shows that depends on the data.  The numbers handed to
    the two [st.write] lines are kept as numbers; the title, the headers
    and the captions are fixed text and are left out. *)
Inductive Widget : Type :=
| StErrorBox (e : StError)
| StDataframe (head : list Row)
| StWriteConsumo (total_consumo : Q)
| StWriteCusto (total_custo : Q)
| StChartDia (consumo_diario : list (Date * Q))
| StMarkdownDia (dia_maior_consumo : Date)
| StChartHora (consumo_horario : list (Z * Q))
| StChartCategoria (valores : list (string * Q)).

Section Main.

Variable pd_to_datetime : list Cell → list (option Timestamp).
Variable pd_to_numeric : list Cell → list (option Q).

(** [st.date_input(label, value)]: given the default value ([None] for
    [NaT]) the widget hands back the chosen date, or raises. *)
Variable st_date_input : DateField → option Date → Exception + Date.

(** The three tabs, for a loaded frame: the widgets shown, and the
    exception that stopped the script if one was raised. *)
Definition render_tabs (data : DataFrame) : list Widget * option Exception :=
  let head := [StDataframe (take 5 (rows data))] in
  match st_date_input StartDate (dt_date <$> Series_min (Data_hora <$> rows data)) with
  | inl e => (head, Some e)
  | inr start_date =>
  match st_date_input EndDate (dt_date <$> Series_max (Data_hora <$> rows data)) with
  | inl e => (head, Some e)
  | inr end_date =>
      let start_date := ATimestamp (to_datetime_scalar (ADate start_date)) in
      let end_date := ATimestamp (to_datetime_scalar (ADate end_date)) in
      let filtered_data := display_filtered_data data start_date end_date in
      let total_consumo := Series_sum (Consumo_kwh <$> rows filtered_data) in
      let total_custo := Series_sum (Custo_total <$> rows filtered_data) in
      let tab1 := head ++ [StWriteConsumo total_consumo; StWriteCusto total_custo] in
      match plot_consumo_por_dia data with
      | (inl e, _) => (tab1, Some e)
      | (inr daily, data) =>
          let col1 := [StChartDia (consumo_diario daily);
                       StMarkdownDia (dia_maior_consumo daily)] in
          match plot_consumo_horario_medio data with
          | (inl e, _) => (tab1 ++ col1, Some e)
          | (inr hourly, data) =>
              let col2 := [StChartHora hourly] in
              match plot_distribuicao_consumo data with
              | (inl e, _) => (tab1 ++ col1 ++ col2, Some e)
              | (inr bands, _) =>
                  (tab1 ++ col1 ++ col2 ++ [StChartCategoria bands], None)
              end
          end
      end
  end
  end.

Definition main (uploaded_file : option UploadedFile)
  : list Widget * option Exception :=
  match uploaded_file with
  | None => ([], None)
  | Some _ =>
      let '(errors, data) := load_data pd_to_datetime pd_to_numeric uploaded_file in
      match data with
      | None => (StErrorBox <$> errors, None)
      | Some data =>
          let '(widgets, raised) := render_tabs data in
          ((StErrorBox <$> errors) ++ widgets, raised)
      end
  end.

End Main.

(** ** Notions used to state the further properties *)

(** The character map of [replace(" ", "_")]. *)
Definition underscore (a : ascii) : ascii := if Ascii.eqb a " " then "_"%char else a.

(** A string that is empty or begins with a non-blank character. *)
Definition starts_clean (s : string) : Prop :=
  match s with
  | EmptyString => True
  | String a _ => Str.is_space a = false
  end.

(** A string of ASCII characters only. *)
Fixpoint ascii_only (s : string) : bool :=
  match s with
  | EmptyString => true
  | String a s' => (nat_of_ascii a <? 128)%nat && ascii_only s'
  end.

(** A string of whitespace only. *)
Fixpoint all_space (s : string) : bool :=
  match s with
  | EmptyString => true
  | String a s' => Str.is_space a && all_space s'
  end.

(** The derived columns of a frame, where present, are the days and the
    hours of its timestamps. *)
Definition aligned (data : DataFrame) : Prop :=
  (∀ v, Dia data = Some v → v = dt_date <$> (Data_hora <$> rows data)) ∧
  (∀ v, Hora data = Some v → v = dt_hour <$> (Data_hora <$> rows data)).

(** A date picker that hands back what the user chose for each field. *)
Definition picker (start_date end_date : Date)
  : DateField → option Date → Exception + Date :=
  λ field _, inr (match field with StartDate => start_date | EndDate => end_date end).

(** A file with the three columns whose only row has no timestamp. *)
Definition blank_file : RawFrame :=
  [ ("Data/hora", [CNaN]); ("Consumo_kwh", [CFloat 5%Q]); ("Custo_total", [CFloat 1%Q]) ].

(** * Properties *)

(** ** Column labels *)

Lemma columns_set_columns (data : RawFrame) (labels : list string) :
  length labels = length data → columns (set_columns data labels) = labels.
Proof.
  intros Hlen. unfold columns, set_columns.
  apply fst_zip. rewrite length_fmap. lia.
Qed.

Lemma columns_normalized (raw : RawFrame) :
  columns (normalized raw) = normalize <$> columns raw.
Proof.
  unfold normalized. apply columns_set_columns.
  unfold columns. by rewrite !length_fmap.
Qed.

Lemma elem_of_columns_labelled (r : string) (data : RawFrame) :
  r ∈ columns data ↔ labelled r data ≠ [].
Proof.
  unfold columns, labelled. rewrite list_elem_of_fmap. split.
  - intros [c [-> Hc]] Hnil.
    by apply (filter_nil_not_elem_of _ _ c) in Hnil.
  - intros Hne. destruct (filter _ data) as [|c cs] eqn:Hf; [done|].
    assert (c ∈ filter (λ c0 : string * list Cell, c0.1 = r) data) as Hc
      by (rewrite Hf; left).
    apply list_elem_of_filter in Hc as [Hr Hc]. eauto.
Qed.

Lemma labelled_twice (r a : string) (data : RawFrame) :
  labelled r (labelled a data) = if decide (r = a) then labelled a data else [].
Proof.
  unfold labelled. induction data as [|c data IH].
  - by case_decide.
  - rewrite (filter_cons (λ c0 : string * list Cell, c0.1 = a)).
    destruct (decide (c.1 = a)) as [Hc|Hc]; [|done].
    rewrite (filter_cons (λ c0 : string * list Cell, c0.1 = r)). rewrite IH.
    destruct (decide (c.1 = r)); destruct (decide (r = a)); congruence.
Qed.

Lemma labelled_select (r : string) (data : RawFrame) (labels : list string) :
  NoDup labels → r ∈ labels →
  labelled r (select_columns data labels) = labelled r data.
Proof.
  unfold select_columns. induction 1 as [|l labels Hl Hnd IH]; intros Hr.
  - inversion Hr.
  - simpl. unfold labelled at 1. rewrite filter_app.
    fold (labelled r (labelled l data)).
    fold (labelled r (flat_map (λ l0, labelled l0 data) labels)).
    rewrite labelled_twice.
    apply elem_of_cons in Hr as [->|Hr].
    + rewrite decide_True by done.
      assert (labelled l (flat_map (λ l0, labelled l0 data) labels) = []) as ->;
        [|by rewrite app_nil_r].
      clear IH Hnd. induction labels as [|l' labels IH]; [done|].
      simpl. unfold labelled at 1. rewrite filter_app.
      fold (labelled l (labelled l' data)).
      fold (labelled l (flat_map (λ l0, labelled l0 data) labels)).
      rewrite labelled_twice, decide_False by set_solver.
      apply IH. set_solver.
    + rewrite decide_False by set_solver. by apply IH.
Qed.

Lemma required_columns_NoDup : NoDup required_columns.
Proof. compute_done. Qed.

Lemma getitem_select (r : string) (data : RawFrame) :
  r ∈ required_columns →
  getitem (select_columns data required_columns) r = getitem data r.
Proof.
  intros Hr. unfold getitem.
  by rewrite (labelled_select _ _ _ required_columns_NoDup Hr).
Qed.

Lemma getitem_series_elem_of (data : RawFrame) (r : string) (cells : list Cell) :
  getitem data r = inr (SSeries cells) → r ∈ columns data.
Proof.
  unfold getitem. intros H. apply elem_of_columns_labelled.
  by destruct (labelled r data).
Qed.

Lemma issubset_true (required labels : list string) :
  issubset required labels = true ↔ ∀ r, r ∈ required → r ∈ labels.
Proof.
  unfold issubset. rewrite forallb_forall. split.
  - intros H r Hr. specialize (H r). rewrite bool_decide_eq_true in H.
    apply H. by apply list_elem_of_In.
  - intros H r Hr. rewrite bool_decide_eq_true. apply H. by apply list_elem_of_In.
Qed.

(** ** [dropna] keeps the fully coerced rows, in order *)

Lemma dropna_spec (t : list (option Timestamp)) (c k : list (option Q)) :
  ∃ idx : list nat,
    StronglySorted lt idx ∧
    (∀ i, i ∈ idx ↔ ∃ r, parsed_at t c k i r) ∧
    Forall2 (parsed_at t c k) idx (dropna t c k).
Proof.
  induction t as [|ot t IH] in c, k |- *.
  { exists []. split_and!; [constructor| |constructor].
    intros i. split; [inversion 1|]. intros [r [H _]]. done. }
  destruct c as [|oc c].
  { exists []. split_and!; [constructor| |constructor].
    intros i. split; [inversion 1|]. intros [r (_ & H & _)]. done. }
  destruct k as [|ok k].
  { exists []. split_and!; [constructor| |constructor].
    intros i. split; [inversion 1|]. intros [r (_ & _ & H)]. done. }
  destruct (IH c k) as (idx & Hsort & Hin & Hall).
  assert (StronglySorted lt (S <$> idx)) as HsortS.
  { clear -Hsort. induction Hsort as [|i idx Hs IHs Hfa]; simpl; constructor; [done|].
    apply Forall_fmap. eapply Forall_impl; [exact Hfa|]. simpl. lia. }
  assert (Forall2 (parsed_at (ot :: t) (oc :: c) (ok :: k)) (S <$> idx) (dropna t c k))
    as HallS.
  { apply Forall2_fmap_l. eapply Forall2_impl; [exact Hall|]. by intros i r. }
  assert (∀ i, S i ∈ S <$> idx ↔ ∃ r, parsed_at (ot :: t) (oc :: c) (ok :: k) (S i) r)
    as HinS.
  { intros i. rewrite <- (Hin i). rewrite list_elem_of_fmap. split.
    - intros [j [Hj ?]]. by simplify_eq.
    - eauto. }
  assert (0 ∉ S <$> idx) as H0.
  { rewrite list_elem_of_fmap. by intros [j [? _]]. }
  destruct ot as [a|], oc as [b|], ok as [d|]; simpl;
    try (exists (S <$> idx); split_and!; [done| |done];
         intros [|i]; [|done]; split; [done|];
         intros [r (H1 & H2 & H3)]; by simplify_eq/=).
  exists (0 :: (S <$> idx)). split_and!.
  - constructor; [done|]. apply Forall_fmap, Forall_forall. intros; simpl; lia.
  - intros [|i].
    + split; [|left]. intros _. by exists (mkRow a b d).
    + rewrite elem_of_cons, <- HinS. split; [intros [?|?]; [lia|done]|by right].
  - by constructor.
Qed.

Lemma dropna_length (t : list (option Timestamp)) (c k : list (option Q)) :
  length (dropna t c k) ≤ length t ∧
  length (dropna t c k) ≤ length c ∧
  length (dropna t c k) ≤ length k.
Proof.
  induction t as [|ot t IH] in c, k |- *; simpl; [lia|].
  destruct c as [|oc c]; simpl; [lia|].
  destruct k as [|ok k]; simpl; [lia|].
  specialize (IH c k).
  destruct ot, oc, ok; simpl; lia.
Qed.

(** ** The loader *)

Section LoaderFacts.

Variable pd_to_datetime : list Cell → list (option Timestamp).
Variable pd_to_numeric : list Cell → list (option Q).

Lemma load_frame_series (raw : RawFrame) (ct cc ck : list Cell) :
  getitem (normalized raw) "Data/hora" = inr (SSeries ct) →
  getitem (normalized raw) "Consumo_kwh" = inr (SSeries cc) →
  getitem (normalized raw) "Custo_total" = inr (SSeries ck) →
  load_frame pd_to_datetime pd_to_numeric raw =
    inr ([], Some (frame_of_rows
                     (dropna (pd_to_datetime ct) (pd_to_numeric cc) (pd_to_numeric ck)))).
Proof.
  intros Ht Hc Hk. unfold load_frame, load_labelled. fold (normalized raw).
  assert (issubset required_columns (columns (normalized raw)) = true) as ->.
  { apply issubset_true. intros r Hr. unfold required_columns in Hr.
    repeat (apply elem_of_cons in Hr as [->|Hr]);
      [by eapply getitem_series_elem_of..|inversion Hr]. }
  rewrite !getitem_select by compute_done.
  by rewrite Ht, Hc, Hk.
Qed.

Lemma load_data_Some_inv (file : UploadedFile) (errs : list StError) (df : DataFrame) :
  load_data pd_to_datetime pd_to_numeric (Some file) = (errs, Some df) →
  ∃ raw ct cc ck,
    file = inr raw ∧
    getitem (normalized raw) "Data/hora" = inr (SSeries ct) ∧
    getitem (normalized raw) "Consumo_kwh" = inr (SSeries cc) ∧
    getitem (normalized raw) "Custo_total" = inr (SSeries ck) ∧
    errs = [] ∧
    df = frame_of_rows
           (dropna (pd_to_datetime ct) (pd_to_numeric cc) (pd_to_numeric ck)).
Proof.
  destruct file as [e|raw]; simpl; [done|].
  unfold load_frame, load_labelled. fold (normalized raw).
  rewrite !getitem_select by compute_done.
  destruct (issubset _ _); simpl; [|done].
  destruct (getitem (normalized raw) "Data/hora") as [?|[ct|?]] eqn:Ht; simpl; try done.
  destruct (getitem (normalized raw) "Consumo_kwh") as [?|[cc|?]] eqn:Hc; simpl; try done.
  destruct (getitem (normalized raw) "Custo_total") as [?|[ck|?]] eqn:Hk; simpl; try done.
  intros [= <- <-]. by exists raw, ct, cc, ck.
Qed.

End LoaderFacts.

(** C5. When the normalised header lacks one of the three required
    labels, the loader reports the missing columns and returns no frame,
    whatever the cells hold and whatever the coercions do. *)
Theorem load_data_missing_column
    (pd_to_datetime : list Cell → list (option Timestamp))
    (pd_to_numeric : list Cell → list (option Q))
    (raw : RawFrame) (r : string) :
  r ∈ required_columns →
  r ∉ normalize <$> columns raw →
  load_data pd_to_datetime pd_to_numeric (Some (inr raw)) =
    ([MissingColumns required_columns], None).
Proof.
  intros Hr Hmiss. simpl. unfold load_frame, load_labelled. fold (normalized raw).
  destruct (issubset required_columns (columns (normalized raw))) eqn:Hsub; [|done].
  exfalso. apply Hmiss. rewrite <- columns_normalized.
  by eapply issubset_true.
Qed.

Lemma load_data_missing_column_witness :
  load_data datetime_of_cells numeric_of_cells (Some (inr no_cost_file)) =
    ([MissingColumns required_columns], None).
Proof.
  apply (load_data_missing_column _ _ no_cost_file "Custo_total").
  - compute_done.
  - compute_done.
Defined.

(** C3, as the loader has it.  Every record of a loaded frame has its
    three fields present: they are the values the coercions produced for
    one and the same row of the three required columns.  The loader makes
    no test on the sign of the consumption. *)
Theorem load_data_fields_present
    (pd_to_datetime : list Cell → list (option Timestamp))
    (pd_to_numeric : list Cell → list (option Q))
    (file : UploadedFile) (errs : list StError) (df : DataFrame) :
  load_data pd_to_datetime pd_to_numeric (Some file) = (errs, Some df) →
  ∃ raw ct cc ck,
    file = inr raw ∧
    getitem (normalized raw) "Data/hora" = inr (SSeries ct) ∧
    getitem (normalized raw) "Consumo_kwh" = inr (SSeries cc) ∧
    getitem (normalized raw) "Custo_total" = inr (SSeries ck) ∧
    ∀ r, r ∈ rows df →
      ∃ i, parsed_at (pd_to_datetime ct) (pd_to_numeric cc) (pd_to_numeric ck) i r.
Proof.
  intros Hload.
  apply load_data_Some_inv in Hload as (raw & ct & cc & ck & -> & Ht & Hc & Hk & _ & ->).
  exists raw, ct, cc, ck. split_and!; try done.
  intros r Hr. simpl in Hr.
  destruct (dropna_spec (pd_to_datetime ct) (pd_to_numeric cc) (pd_to_numeric ck))
    as (idx & _ & _ & Hall).
  apply list_elem_of_lookup in Hr as [j Hj].
  destruct (Forall2_lookup_r _ _ _ _ _ Hall Hj) as (i & _ & Hi). eauto.
Qed.

Lemma load_data_fields_present_witness :
  ∃ raw ct cc ck,
    (inr scenario_file : UploadedFile) = inr raw ∧
    getitem (normalized raw) "Data/hora" = inr (SSeries ct) ∧
    getitem (normalized raw) "Consumo_kwh" = inr (SSeries cc) ∧
    getitem (normalized raw) "Custo_total" = inr (SSeries ck) ∧
    ∀ r, r ∈ scenario_rows →
      ∃ i, parsed_at (datetime_of_cells ct) (numeric_of_cells cc) (numeric_of_cells ck) i r.
Proof.
  apply (load_data_fields_present datetime_of_cells numeric_of_cells
           (inr scenario_file) [] scenario).
  vm_compute. reflexivity.
Defined.

(** C3 as stated fails: a reading with consumption -5 survives the load. *)
Lemma load_data_negative_consumption :
  ∃ df r,
    load_data datetime_of_cells numeric_of_cells (Some (inr negative_file))
      = ([], Some df) ∧
    r ∈ rows df ∧ (Consumo_kwh r < 0)%Q.
Proof.
  exists (frame_of_rows [mkRow (mk_timestamp 2024 1 1 19 0) (-5)%Q 10%Q]),
         (mkRow (mk_timestamp 2024 1 1 19 0) (-5)%Q 10%Q).
  split_and!.
  - vm_compute. reflexivity.
  - left.
  - reflexivity.
Qed.

(** C6, as the loader has it.  When each required label names exactly one
    column of the normalised header, the load succeeds; row [i] survives
    exactly when its timestamp, consumption and cost were all coerced;
    the surviving records are those rows in increasing row order; and
    there are at most as many of them as the file has rows. *)
Theorem load_data_keeps_parsed_rows
    (pd_to_datetime : list Cell → list (option Timestamp))
    (pd_to_numeric : list Cell → list (option Q))
    (raw : RawFrame) (ct cc ck : list Cell) :
  (∀ cells, length (pd_to_datetime cells) = length cells) →
  getitem (normalized raw) "Data/hora" = inr (SSeries ct) →
  getitem (normalized raw) "Consumo_kwh" = inr (SSeries cc) →
  getitem (normalized raw) "Custo_total" = inr (SSeries ck) →
  ∃ (out : list Row) (idx : list nat),
    load_data pd_to_datetime pd_to_numeric (Some (inr raw))
      = ([], Some (frame_of_rows out)) ∧
    StronglySorted lt idx ∧
    (∀ i, i ∈ idx ↔
          ∃ r, parsed_at (pd_to_datetime ct) (pd_to_numeric cc) (pd_to_numeric ck) i r) ∧
    Forall2 (parsed_at (pd_to_datetime ct) (pd_to_numeric cc) (pd_to_numeric ck)) idx out ∧
    length out ≤ length ct.
Proof.
  intros Hlen Ht Hc Hk.
  destruct (dropna_spec (pd_to_datetime ct) (pd_to_numeric cc) (pd_to_numeric ck))
    as (idx & Hsort & Hin & Hall).
  exists (dropna (pd_to_datetime ct) (pd_to_numeric cc) (pd_to_numeric ck)), idx.
  split_and!; try done.
  - simpl. by rewrite (load_frame_series _ _ raw ct cc ck).
  - rewrite <- (Hlen ct). apply dropna_length.
Qed.

Lemma load_data_keeps_parsed_rows_witness :
  ∃ (out : list Row) (idx : list nat),
    load_data datetime_of_cells numeric_of_cells (Some (inr gappy_file))
      = ([], Some (frame_of_rows out)) ∧
    StronglySorted lt idx ∧
    (∀ i, i ∈ idx ↔
          ∃ r, parsed_at (datetime_of_cells [CStr "2024-01-01 19:00"; CStr "2024-01-01 20:00"])
                 (numeric_of_cells [CFloat 5%Q; CNaN])
                 (numeric_of_cells [CFloat 1%Q; CFloat 2%Q]) i r) ∧
    Forall2 (parsed_at (datetime_of_cells [CStr "2024-01-01 19:00"; CStr "2024-01-01 20:00"])
               (numeric_of_cells [CFloat 5%Q; CNaN])
               (numeric_of_cells [CFloat 1%Q; CFloat 2%Q])) idx out ∧
    length out ≤ 2.
Proof.
  apply (load_data_keeps_parsed_rows datetime_of_cells numeric_of_cells gappy_file
           [CStr "2024-01-01 19:00"; CStr "2024-01-01 20:00"] [CFloat 5%Q; CNaN] [CFloat 1%Q; CFloat 2%Q]).
  - intros cells. unfold datetime_of_cells. apply length_fmap.
  - vm_compute. reflexivity.
  - vm_compute. reflexivity.
  - vm_compute. reflexivity.
Defined.

(** C6 as stated fails: all three required labels are in the normalised
    header and the timestamp, the consumption and the cost of the single
    row are all coerced, yet the row is not in any output, because the
    repeated cost label makes the load raise. *)
Lemma load_data_repeated_label :
  issubset required_columns (columns (normalized repeated_cost_file)) = true ∧
  parsed_at (datetime_of_cells [CStr "2024-01-01 19:00"])
            (numeric_of_cells [CInt 5]) (numeric_of_cells [CFloat 10%Q]) 0
            (mkRow (mk_timestamp 2024 1 1 19 0) 5%Q 10%Q) ∧
  load_data datetime_of_cells numeric_of_cells (Some (inr repeated_cost_file))
    = ([LoadFailed (TypeError "arg must be a list, tuple, 1-d array, or Series")],
       None).
Proof. split_and!; [|split_and!|]; vm_compute; reflexivity. Qed.

(** C10, as the loader has it.  Once the labels are normalised, the load
    depends on the frame only through the columns that carry one of the
    three required labels: two frames with the same columns under each of
    the three labels load to the same result, whatever other columns
    either has and whatever they hold, for any coercions. *)
Theorem load_labelled_ignores_other_columns
    (pd_to_datetime : list Cell → list (option Timestamp))
    (pd_to_numeric : list Cell → list (option Q))
    (data1 data2 : RawFrame) :
  Forall (λ r, labelled r data1 = labelled r data2) required_columns →
  load_labelled pd_to_datetime pd_to_numeric data1 =
  load_labelled pd_to_datetime pd_to_numeric data2.
Proof.
  intros Hsame. unfold load_labelled.
  unfold required_columns in Hsame.
  apply Forall_cons in Hsame as [Ht Hsame].
  apply Forall_cons in Hsame as [Hc Hsame].
  apply Forall_cons in Hsame as [Hk _].
  cbv beta in Ht, Hc, Hk.
  assert (issubset required_columns (columns data1) =
          issubset required_columns (columns data2)) as ->.
  { unfold issubset, required_columns. cbn [forallb].
    f_equal; [|f_equal; [|f_equal]];
      apply bool_decide_ext; rewrite !elem_of_columns_labelled;
      first [by rewrite Ht|by rewrite Hc|by rewrite Hk]. }
  assert (select_columns data1 required_columns =
          select_columns data2 required_columns) as ->; [|done].
  unfold select_columns, required_columns. cbn [flat_map]. by rewrite Ht, Hc, Hk.
Qed.

Lemma load_labelled_ignores_other_columns_witness :
  load_labelled datetime_of_cells numeric_of_cells single_reading_file =
  load_labelled datetime_of_cells numeric_of_cells
    (("Tarifa", [CStr "A"]) :: single_reading_file).
Proof.
  apply (load_labelled_ignores_other_columns datetime_of_cells numeric_of_cells
           single_reading_file (("Tarifa", [CStr "A"]) :: single_reading_file)).
  repeat constructor.
Defined.

(** C10 as stated fails.  [repeated_cost_file] is [single_reading_file]
    with one more column; both headers contain the three required labels
    after normalisation and the columns named by the three labels are the
    same in both; yet the first file loads to its one record and the
    second does not load, because the header of the added column
    normalises to the cost label. *)
Lemma load_data_extra_column :
  repeated_cost_file = single_reading_file ++ [("custo total", [CFloat 10%Q])] ∧
  issubset required_columns (columns (normalized single_reading_file)) = true ∧
  issubset required_columns (columns (normalized repeated_cost_file)) = true ∧
  Forall (λ r, labelled r repeated_cost_file = labelled r single_reading_file)
         required_columns ∧
  load_data datetime_of_cells numeric_of_cells (Some (inr single_reading_file))
    = ([], Some evening) ∧
  load_data datetime_of_cells numeric_of_cells (Some (inr repeated_cost_file))
    = ([LoadFailed (TypeError "arg must be a list, tuple, 1-d array, or Series")],
       None).
Proof. split_and!; try (vm_compute; reflexivity). repeat constructor. Qed.

(** The file of the end-to-end scenario loads to its three records. *)
Lemma load_data_scenario :
  load_data datetime_of_cells numeric_of_cells (Some (inr scenario_file))
    = ([], Some scenario).
Proof. vm_compute. reflexivity. Qed.

(** ** Masks, sums and hours *)

Lemma loc_fmap {A B : Type} (p : A → bool) (g : A → B) (l : list A) :
  loc (p <$> l) (g <$> l) = g <$> filter (λ x, p x) l.
Proof.
  induction l as [|x l IH]; [done|].
  cbn [fmap list_fmap loc]. rewrite filter_cons.
  destruct (p x); simpl; [by f_equal|done].
Qed.

Lemma loc_self {A : Type} (p : A → bool) (l : list A) :
  loc (p <$> l) l = filter (λ x, p x) l.
Proof.
  rewrite <- (list_fmap_id l) at 2. rewrite (loc_fmap p id).
  apply list_fmap_id.
Qed.

Lemma dt_hour_range (t : Timestamp) : (0 ≤ dt_hour t ≤ 23)%Z.
Proof.
  unfold dt_hour.
  assert (0 ≤ t mod NS_PER_DAY < NS_PER_DAY)%Z as Hmod
    by (apply Z.mod_pos_bound; reflexivity).
  split.
  - apply Z.div_pos; [lia|reflexivity].
  - apply Z.lt_succ_r. apply Z.div_lt_upper_bound; [reflexivity|].
    change (NS_PER_HOUR * Z.succ 23)%Z with NS_PER_DAY. lia.
Qed.

Lemma between_spec (lo hi h : Z) : between lo hi h ↔ (lo ≤ h ≤ hi)%Z.
Proof.
  unfold between. rewrite andb_True, !Is_true_true, !Z.leb_le. done.
Qed.

Lemma dt_date_on_day (t : Timestamp) (d : Date) : dt_date t = d ↔ on_day d t.
Proof.
  unfold dt_date, on_day.
  change NS_PER_DAY with 86400000000000%Z.
  split; [intros <-|intros H]; Z.div_mod_to_equations; lia.
Qed.

Lemma dt_hour_at_hour (t : Timestamp) (h : Z) : dt_hour t = h ↔ at_hour h t.
Proof.
  unfold dt_hour, at_hour.
  change NS_PER_DAY with 86400000000000%Z. change NS_PER_HOUR with 3600000000000%Z.
  split.
  - intros <-. split; [Z.div_mod_to_equations; lia|].
    exists (t / 86400000000000)%Z. Z.div_mod_to_equations. lia.
  - intros [Hh [d Hd]]. Z.div_mod_to_equations. lia.
Qed.

Lemma loc_nil_r {A : Type} (mask : list bool) : loc mask (@nil A) = [].
Proof. by destruct mask as [|[] ?]. Qed.

(** A mask computed from the timestamps selects the values of the rows
    that satisfy it. *)
Lemma loc_zip {A V : Type} (p : A → bool) (l : list A) (vals : list V) :
  loc (p <$> l) vals = (filter (λ xv, p xv.1) (zip l vals)).*2.
Proof.
  induction l as [|x l IH] in vals |- *; [done|].
  destruct vals as [|v vals]; [done|].
  cbn [fmap list_fmap loc zip zip_with].
  rewrite (filter_cons (λ xv : A * V, p xv.1)). simpl.
  destruct (p x); simpl; [f_equal|]; apply IH.
Qed.

(** A second mask, cut by the first one, selects among the values that
    the first one kept. *)
Lemma loc_loc_zip {A V : Type} (p q : A → bool) (l : list A) (vals : list V) :
  loc (loc (p <$> l) (q <$> l)) (loc (p <$> l) vals)
    = (filter (λ xv, p xv.1 ∧ q xv.1) (zip l vals)).*2.
Proof.
  induction l as [|x l IH] in vals |- *; [done|].
  destruct vals as [|v vals].
  { cbn [fmap list_fmap]. by rewrite !loc_nil_r. }
  cbn [fmap list_fmap loc zip zip_with].
  rewrite (filter_cons (λ xv : A * V, p xv.1 ∧ q xv.1)). cbn [fst].
  destruct (p x), (q x); cbn [loc]; case_decide as H;
    try (by destruct H as [? ?]); try (by exfalso; apply H).
  - rewrite fmap_cons. cbn [snd]. f_equal. apply IH.
  - apply IH.
  - apply IH.
  - apply IH.
Qed.

(** ** The date filter *)

(** What the filter computes for any two bounds: the records between the
    two converted bounds, both included.  A calendar date converts to its
    midnight. *)
Lemma display_filtered_data_rows (data : DataFrame) (start_date end_date : DateLike) :
  rows (display_filtered_data data start_date end_date) =
    filter (λ r, (to_datetime_scalar start_date ≤ Data_hora r)%Z ∧
                 (Data_hora r ≤ to_datetime_scalar end_date)%Z) (rows data).
Proof.
  simpl. rewrite loc_self. apply list_filter_iff. intros r.
  rewrite andb_True, !Is_true_true, !Z.leb_le. done.
Qed.

(** C1 at the failing input.  A reading at 19:00 on 2024-01-01 belongs to
    that calendar day, and the filter from 2024-01-01 to 2024-01-01 does
    not return it: the end bound is the midnight that opens the day. *)
Theorem display_filtered_data_drops_end_day :
  dt_date (mk_timestamp 2024 1 1 19 0) = jan_1 ∧
  rows evening = [mkRow (mk_timestamp 2024 1 1 19 0) 5%Q 10%Q] ∧
  display_filtered_data evening (ADate jan_1) (ADate jan_1) = frame_of_rows [].
Proof. split_and!; reflexivity. Qed.

(** ** Effect of the plotting functions on the frame *)

(** C2, as the code has it.  Each plotting function keeps the rows of the
    frame it receives (the three record fields, their number and their
    order) and assigns one derived column to that same frame: ['Dia'] for
    the daily totals, ['Hora'] for the hourly means and for the bands.
    The other derived column is left as it was. *)
Theorem plot_frame_effect (data : DataFrame) :
  (plot_consumo_por_dia data).2 =
    {| rows := rows data;
       Dia := Some (dt_date <$> (Data_hora <$> rows data));
       Hora := Hora data |} ∧
  (plot_consumo_horario_medio data).2 =
    {| rows := rows data;
       Dia := Dia data;
       Hora := Some (dt_hour <$> (Data_hora <$> rows data)) |} ∧
  (plot_distribuicao_consumo data).2 =
    {| rows := rows data;
       Dia := Dia data;
       Hora := Some (dt_hour <$> (Data_hora <$> rows data)) |}.
Proof.
  split_and!; [|reflexivity..].
  unfold plot_consumo_por_dia, mbind, App_bind, eval. simpl.
  by destruct (idxmax _).
Qed.

(** C2 as stated fails: after the daily totals the frame that was passed
    in is no longer the frame it was. *)
Lemma plot_consumo_por_dia_mutates :
  (plot_consumo_por_dia scenario).2 ≠ scenario.
Proof. intros H. apply (f_equal Dia) in H. vm_compute in H. discriminate. Qed.

(** ** No rows *)

(** C4 at the failing input.  On a frame without rows the hourly means are
    empty and the three band totals are zero, but the daily totals raise:
    [idxmax] has no maximum to report on the empty Series. *)
Theorem plots_without_rows (data : DataFrame) :
  rows data = [] →
  (plot_consumo_por_dia data).1 =
    inl (ValueError "attempt to get argmax of an empty sequence") ∧
  (plot_consumo_horario_medio data).1 = inr [] ∧
  (plot_distribuicao_consumo data).1 =
    inr [("Pico (18h-23h)", 0%Q); ("Noturno (0h-5h)", 0%Q); ("Outros", 0%Q)].
Proof.
  destruct data as [rs dia hora]. simpl. intros ->. split_and!; reflexivity.
Qed.

Lemma plots_without_rows_witness :
  (plot_consumo_por_dia (frame_of_rows [])).1 =
    inl (ValueError "attempt to get argmax of an empty sequence") ∧
  (plot_consumo_horario_medio (frame_of_rows [])).1 = inr [] ∧
  (plot_distribuicao_consumo (frame_of_rows [])).1 =
    inr [("Pico (18h-23h)", 0%Q); ("Noturno (0h-5h)", 0%Q); ("Outros", 0%Q)].
Proof. apply (plots_without_rows (frame_of_rows [])). reflexivity. Defined.

(** ** The end-to-end scenario *)

(** C9. On the three records of the scenario the daily totals are 8 on
    2024-01-01 and 4 on 2024-01-02 with 2024-01-01 the day of the
    maximum, the hourly means are 3 at hour 2 and 9/2 at hour 19, and the
    bands are 9 at the peak, 3 at night and 0 elsewhere; the same charts
    come out when the three functions run one after the other on the one
    frame. *)
Theorem scenario_charts :
  (plot_consumo_por_dia scenario).1 =
    inr (mkDailyChart [(jan_1, 8%Q); (jan_2, 4%Q)] jan_1) ∧
  (plot_consumo_horario_medio scenario).1 = inr [(2%Z, 3%Q); (19%Z, (9 # 2)%Q)] ∧
  (plot_distribuicao_consumo scenario).1 =
    inr [("Pico (18h-23h)", 9%Q); ("Noturno (0h-5h)", 3%Q); ("Outros", 0%Q)] ∧
  (plot_all scenario).1 =
    inr (mkDailyChart [(jan_1, 8%Q); (jan_2, 4%Q)] jan_1,
         [(2%Z, 3%Q); (19%Z, (9 # 2)%Q)],
         [("Pico (18h-23h)", 9%Q); ("Noturno (0h-5h)", 3%Q); ("Outros", 0%Q)]) ∧
  jan_1 = 19723%Z ∧ jan_2 = 19724%Z.
Proof. split_and!; vm_compute; reflexivity. Qed.

(** ** Grouping *)

Lemma add_to_group_keys {V : Type} (key : Z) (v : V) (groups : list (Z * list V)) (k : Z) :
  k ∈ (add_to_group key v groups).*1 ↔ k = key ∨ k ∈ groups.*1.
Proof.
  induction groups as [|[k0 g] groups IH]; simpl.
  - rewrite list_elem_of_singleton. split; [by left|]. intros [?|H]; [done|inversion H].
  - destruct (key <? k0)%Z eqn:Hlt; [|destruct (key =? k0)%Z eqn:Heq]; simpl.
    + by rewrite elem_of_cons.
    + apply Z.eqb_eq in Heq as ->. rewrite elem_of_cons. tauto.
    + rewrite !elem_of_cons, IH. tauto.
Qed.

Lemma add_to_group_sorted {V : Type} (key : Z) (v : V) (groups : list (Z * list V)) :
  StronglySorted Z.lt groups.*1 →
  StronglySorted Z.lt (add_to_group key v groups).*1.
Proof.
  induction groups as [|[k0 g] groups IH]; simpl; intros Hs.
  - repeat constructor.
  - apply StronglySorted_cons in Hs as [Hall Hs].
    destruct (key <? k0)%Z eqn:Hlt; [|destruct (key =? k0)%Z eqn:Heq]; simpl.
    + apply Z.ltb_lt in Hlt. apply StronglySorted_cons. split.
      * constructor; [done|]. eapply Forall_impl; [exact Hall|]. simpl. lia.
      * by apply StronglySorted_cons.
    + by apply StronglySorted_cons.
    + apply Z.ltb_ge in Hlt. apply Z.eqb_neq in Heq.
      apply StronglySorted_cons. split; [|by apply IH].
      apply Forall_forall. intros k Hk.
      apply add_to_group_keys in Hk as [->|Hk]; [lia|].
      by eapply Forall_forall in Hall.
Qed.


Lemma values_at_snoc {V : Type} (k : Z) (kvs : list (Z * V)) (kv : Z * V) :
  values_at k (kvs ++ [kv]) =
    values_at k kvs ++ (if decide (kv.1 = k) then [kv.2] else []).
Proof.
  unfold values_at. rewrite filter_app, fmap_app. f_equal.
  rewrite filter_cons, filter_nil. by case_decide.
Qed.

Lemma sorted_head_not_in (k k0 : Z) (ks : list Z) :
  StronglySorted Z.lt (k0 :: ks) → (k ≤ k0)%Z → k ∉ ks.
Proof.
  intros Hs Hle Hin. apply StronglySorted_cons in Hs as [Hall _].
  eapply Forall_forall in Hall; [|exact Hin]. lia.
Qed.

Lemma add_to_group_elem {V : Type} (key : Z) (v : V) (groups : list (Z * list V)) (k : Z) (g : list V) :
  StronglySorted Z.lt groups.*1 →
  (k, g) ∈ add_to_group key v groups ↔
    (k ≠ key ∧ (k, g) ∈ groups) ∨
    (k = key ∧ ∃ g0, g = g0 ++ [v] ∧
                     ((key, g0) ∈ groups ∨ (g0 = [] ∧ key ∉ groups.*1))).
Proof.
  induction groups as [|[k0 g0'] groups IH]; intros Hs.
  - simpl. rewrite list_elem_of_singleton. split.
    + intros [= -> ->]. right. split; [done|]. exists []. split; [done|].
      right. split; [done|]. inversion 1.
    + intros [[_ H]|(-> & g0 & -> & [H|[-> _]])]; [inversion H|inversion H|done].
  - cbn [add_to_group]. rewrite fmap_cons in Hs. simpl in Hs.
    assert (∀ g', (k0, g') ∉ groups) as Hk0.
    { intros g' Hin. eapply (sorted_head_not_in k0 k0); [exact Hs|lia|].
      by apply (list_elem_of_fmap_2 fst) in Hin. }
    destruct (key <? k0)%Z eqn:Hlt; [|destruct (key =? k0)%Z eqn:Heq].
    + apply Z.ltb_lt in Hlt.
      assert (key ∉ ((k0, g0') :: groups).*1) as Hnotin.
      { rewrite fmap_cons. simpl. rewrite not_elem_of_cons. split; [lia|].
        eapply sorted_head_not_in; [exact Hs|lia]. }
      rewrite elem_of_cons. split.
      * intros [[= -> ->]|Hin].
        -- right. split; [done|]. exists []. auto.
        -- left. split; [|done]. intros ->.
           apply (list_elem_of_fmap_2 fst) in Hin. by apply Hnotin.
      * intros [[_ Hin]|(-> & g0 & -> & [Hin|[-> _]])]; [by right| |by left].
        by apply (list_elem_of_fmap_2 fst) in Hin.
    + apply Z.eqb_eq in Heq as ->.
      rewrite !elem_of_cons. split.
      * intros [[= -> ->]|Hin].
        -- right. split; [done|]. exists g0'. split; [done|]. left. by left.
        -- left. split; [|by right]. intros ->. by eapply Hk0.
      * intros [[Hne [[= ? ?]|Hin]]|(-> & g0 & -> & [Hin|[-> Hnotin]])].
        -- done.
        -- by right.
        -- apply elem_of_cons in Hin as [[= ->]|Hin]; [by left|].
           by apply Hk0 in Hin.
        -- exfalso. apply Hnotin. rewrite fmap_cons. left.
    + apply Z.ltb_ge in Hlt. apply Z.eqb_neq in Heq.
      apply StronglySorted_cons in Hs as [Hall Hs].
      rewrite elem_of_cons. split.
      * intros [[= -> ->]|Hin].
        -- left. split; [done|left].
        -- apply (IH Hs) in Hin as [[Hne Hin]|(-> & g0 & -> & [Hin|[-> Hnotin]])].
           ++ left. split; [done|by right].
           ++ right. split; [done|]. exists g0. split; [done|]. left. by right.
           ++ right. split; [done|]. exists []. split; [done|]. right.
              split; [done|]. rewrite fmap_cons, not_elem_of_cons. done.
      * intros [[Hne Hin]|(-> & g0 & -> & [Hin|[-> Hnotin]])].
        -- apply elem_of_cons in Hin as [[= -> ->]|Hin]; [by left|].
           right. apply (IH Hs). by left.
        -- apply elem_of_cons in Hin as [[= ? ?]|Hin]; [done|].
           right. apply (IH Hs). right. split; [done|]. exists g0. auto.
        -- rewrite fmap_cons, not_elem_of_cons in Hnotin.
           destruct Hnotin as [_ Hnotin].
           right. apply (IH Hs). right. split; [done|]. exists []. auto.
Qed.

Section Groupby.

Context {V : Type}.

Let step (groups : list (Z * list V)) (kv : Z * V) : list (Z * list V) :=
  add_to_group kv.1 kv.2 groups.

Lemma foldl_group_keys (kvs : list (Z * V)) (acc : list (Z * list V)) (k : Z) :
  k ∈ (foldl step acc kvs).*1 ↔ k ∈ acc.*1 ∨ k ∈ kvs.*1.
Proof.
  induction kvs as [|kv kvs IH] in acc |- *; simpl.
  - split; [by left|]. intros [?|H]; [done|inversion H].
  - rewrite IH. unfold step. rewrite add_to_group_keys, elem_of_cons. tauto.
Qed.

Lemma foldl_group_sorted (kvs : list (Z * V)) (acc : list (Z * list V)) :
  StronglySorted Z.lt acc.*1 → StronglySorted Z.lt (foldl step acc kvs).*1.
Proof.
  induction kvs as [|kv kvs IH] in acc |- *; simpl; [done|].
  intros Hs. apply IH. by apply add_to_group_sorted.
Qed.



(** The groups built from the rows seen so far. *)
Let grouped (seen : list (Z * V)) (groups : list (Z * list V)) : Prop :=
  StronglySorted Z.lt groups.*1 ∧
  ∀ k g, (k, g) ∈ groups ↔ g = values_at k seen ∧ g ≠ [].

Lemma grouped_step (seen : list (Z * V)) (groups : list (Z * list V)) (kv : Z * V) :
  grouped seen groups → grouped (seen ++ [kv]) (step groups kv).
Proof.
  intros [Hs Hg]. split; [by apply add_to_group_sorted|].
  intros k g. unfold step. rewrite add_to_group_elem by done.
  rewrite values_at_snoc.
  assert (kv.1 ∉ groups.*1 ↔ values_at kv.1 seen = []) as Hnone.
  { split.
    - intros Hnotin. destruct (values_at kv.1 seen) as [|q qs] eqn:Hv; [done|].
      exfalso. apply Hnotin.
      apply (list_elem_of_fmap_2 fst _ (kv.1, q :: qs)), Hg. by rewrite Hv.
    - intros Hv Hin. apply list_elem_of_fmap in Hin as ([k' g'] & Hk' & Hin).
      simpl in Hk'. subst k'. apply Hg in Hin as [-> Hne]. done. }
  split.
  - intros [[Hne Hin]|(-> & g0 & -> & [Hin|[-> Hnotin]])].
    + rewrite decide_False by done. rewrite app_nil_r. by apply Hg.
    + rewrite decide_True by done. apply Hg in Hin as [-> _].
      split; [done|]. by destruct (values_at _ _).
    + rewrite decide_True by done. apply Hnone in Hnotin as ->. done.
  - intros [-> Hne]. case_decide as Hk.
    + right. split; [done|]. exists (values_at kv.1 seen). subst k.
      split; [done|].
      destruct (values_at kv.1 seen) as [|q qs] eqn:Hv.
      * right. split; [done|]. by apply Hnone.
      * left. apply Hg. by rewrite Hv.
    + left. split; [done|]. apply Hg. rewrite app_nil_r in Hne |- *. done.
Qed.

Lemma grouped_foldl (kvs seen : list (Z * V)) (groups : list (Z * list V)) :
  grouped seen groups → grouped (seen ++ kvs) (foldl step groups kvs).
Proof.
  induction kvs as [|kv kvs IH] in seen, groups |- *; intros Hg.
  - by rewrite app_nil_r.
  - cbn [foldl]. rewrite cons_middle, (assoc_L (++)). by apply IH, grouped_step.
Qed.

(** A group of [groupby] holds the values of the rows with its key, in row
    order, and there is a group for each key that occurs. *)
Lemma groupby_groups (keys : list Z) (vals : list V) (k : Z) (g : list V) :
  (k, g) ∈ groupby keys vals ↔ g = values_at k (zip keys vals) ∧ g ≠ [].
Proof.
  unfold groupby.
  destruct (grouped_foldl (zip keys vals) [] []) as [_ H]; [|by apply H].
  split; [constructor|]. intros k' g'. split; [inversion 1|]. by intros [-> ?].
Qed.

End Groupby.

Lemma agg_keys {V : Type} (f : list V → V) (groups : list (Z * list V)) :
  (agg f groups).*1 = groups.*1.
Proof.
  unfold agg. rewrite <- list_fmap_compose. by apply list_fmap_ext; intros ? [??].
Qed.


Lemma values_at_columns {A V : Type} (key : A → Z) (val : A → V) (l : list A) (k : Z) :
  values_at k (zip (key <$> l) (val <$> l)) = val <$> filter (λ x, key x = k) l.
Proof.
  unfold values_at. induction l as [|x l IH]; [done|].
  cbn [fmap list_fmap zip zip_with].
  rewrite (filter_cons (λ kv : Z * V, kv.1 = k)), (filter_cons (λ x, key x = k)).
  simpl. destruct (decide (key x = k)); simpl; [f_equal|]; exact IH.
Qed.

(** The aggregate of a grouped column, for rows [l] with key [key] and
    value [val]: the keys come out in strictly increasing order, they are
    the keys of the rows, and each entry aggregates the values of the rows
    with its key. *)
Lemma groupby_agg_spec {A V : Type} (key : A → Z) (val : A → V) (f : list V → V)
    (l : list A) :
  StronglySorted Z.lt (agg f (groupby (key <$> l) (val <$> l))).*1 ∧
  (∀ k, k ∈ (agg f (groupby (key <$> l) (val <$> l))).*1 ↔ ∃ x, x ∈ l ∧ key x = k) ∧
  (∀ k q, (k, q) ∈ agg f (groupby (key <$> l) (val <$> l)) →
          q = f (val <$> filter (λ x, key x = k) l)).
Proof.
  split_and!.
  - rewrite agg_keys. unfold groupby. apply foldl_group_sorted. constructor.
  - intros k. rewrite agg_keys. unfold groupby. rewrite foldl_group_keys.
    rewrite fst_zip by (rewrite !length_fmap; lia).
    split.
    + intros [H|H]; [inversion H|].
      apply list_elem_of_fmap in H as (x & -> & Hx). eauto.
    + intros (x & Hx & <-). right. by apply list_elem_of_fmap_2.
  - intros k q Hin. unfold agg in Hin.
    apply list_elem_of_fmap in Hin as ([k' g] & Heq & Hin).
    simpl in Heq. injection Heq as -> ->.
    apply groupby_groups in Hin as [-> _].
    by rewrite values_at_columns.
Qed.

Lemma values_at_cons {V : Type} (k : Z) (kv : Z * V) (kvs : list (Z * V)) :
  values_at k (kv :: kvs) =
    if decide (kv.1 = k) then kv.2 :: values_at k kvs else values_at k kvs.
Proof. unfold values_at. rewrite filter_cons. by case_decide. Qed.

Lemma values_at_zip_fmap {A V : Type} (key : A → Z) (l : list A) (vals : list V) (k : Z) :
  values_at k (zip (key <$> l) vals) = (filter (λ xv, key xv.1 = k) (zip l vals)).*2.
Proof.
  unfold values_at. induction l as [|x l IH] in vals |- *; [done|].
  destruct vals as [|v vals]; [done|].
  cbn [fmap list_fmap zip zip_with].
  rewrite (filter_cons (λ kv : Z * V, kv.1 = k)), (filter_cons (λ xv : A * V, key xv.1 = k)).
  simpl. destruct (decide (key x = k)); simpl; [f_equal|]; apply IH.
Qed.

Lemma day_values_values_at {V : Type} (d : Date) (data_hora : list Timestamp)
    (consumo : list V) :
  values_at d (zip (dt_date <$> data_hora) consumo) = day_values d data_hora consumo.
Proof.
  rewrite values_at_zip_fmap. unfold day_values. f_equal.
  apply list_filter_iff. intros [t v]. simpl. apply dt_date_on_day.
Qed.

Lemma hour_values_values_at {V : Type} (h : Z) (data_hora : list Timestamp)
    (consumo : list V) :
  values_at h (zip (dt_hour <$> data_hora) consumo) = hour_values h data_hora consumo.
Proof. apply values_at_zip_fmap. Qed.

Lemma StronglySorted_lt_NoDup (l : list Z) : StronglySorted Z.lt l → NoDup l.
Proof.
  induction 1 as [|x l Hs IH Hall]; constructor; [|done].
  intros Hx. eapply Forall_forall in Hall; [|exact Hx]. lia.
Qed.

(** Values spread over distinct keys: one value more under one of the keys
    is one value more in all. *)
Lemma concat_insert_at {V : Type} (ks : list Z) (k0 : Z) (v : V) (f : Z → list V) :
  NoDup ks → k0 ∈ ks →
  concat ((λ k, if decide (k0 = k) then v :: f k else f k) <$> ks)
    ≡ₚ v :: concat (f <$> ks).
Proof.
  induction 1 as [|k ks Hk Hnd IH]; intros Hin; [inversion Hin|].
  rewrite !fmap_cons. cbn [concat]. cbn beta.
  destruct (decide (k0 = k)) as [->|Hne].
  - cbn [app]. constructor. apply Permutation_app_head.
    assert ((λ k1, if decide (k = k1) then v :: f k1 else f k1) <$> ks = f <$> ks)
      as ->; [|done].
    apply list_fmap_ext. intros i k1 Hi. rewrite decide_False; [done|].
    intros <-. apply Hk. by eapply list_elem_of_lookup_2.
  - apply elem_of_cons in Hin as [?|Hin]; [done|].
    etrans; [apply Permutation_app_head, IH, Hin|].
    symmetry. apply Permutation_middle.
Qed.

(** The groups of the keys that occur hold every value once. *)
Lemma concat_values_at {V : Type} (ks : list Z) (kvs : list (Z * V)) :
  NoDup ks → (∀ kv, kv ∈ kvs → kv.1 ∈ ks) →
  concat ((λ k, values_at k kvs) <$> ks) ≡ₚ kvs.*2.
Proof.
  intros Hnd. induction kvs as [|kv kvs IH]; intros Hall.
  - unfold values_at. simpl. clear Hnd Hall. induction ks as [|k ks IH]; [done|]. exact IH.
  - rewrite fmap_cons.
    rewrite <- IH by (intros kv' Hkv'; apply Hall; by right).
    rewrite <- (concat_insert_at ks kv.1 kv.2 (λ k, values_at k kvs) Hnd)
      by (apply Hall; left).
    assert ((λ k, values_at k (kv :: kvs)) <$> ks =
            (λ k, if decide (kv.1 = k) then kv.2 :: values_at k kvs else values_at k kvs) <$> ks)
      as ->; [|done].
    apply list_fmap_ext. intros i k _. apply values_at_cons.
Qed.

(** The aggregate of a grouped column, for a key column [keys] and a
    value column [vals] of the same length. *)
Lemma groupby_agg_columns {V : Type} (f : list V → V) (keys : list Z) (vals : list V) :
  length vals = length keys →
  StronglySorted Z.lt (agg f (groupby keys vals)).*1 ∧
  (∀ k, k ∈ (agg f (groupby keys vals)).*1 ↔ k ∈ keys) ∧
  (∀ k q, (k, q) ∈ agg f (groupby keys vals) →
          values_at k (zip keys vals) ≠ [] ∧ q = f (values_at k (zip keys vals))) ∧
  concat ((λ k, values_at k (zip keys vals)) <$> (agg f (groupby keys vals)).*1) ≡ₚ vals.
Proof.
  intros Hlen.
  assert (StronglySorted Z.lt (agg f (groupby keys vals)).*1) as Hsort.
  { rewrite agg_keys. unfold groupby. apply foldl_group_sorted. constructor. }
  assert (∀ k, k ∈ (agg f (groupby keys vals)).*1 ↔ k ∈ keys) as Hkeys.
  { intros k. rewrite agg_keys. unfold groupby. rewrite foldl_group_keys.
    rewrite fst_zip by lia. split; [|by right]. intros [H|H]; [inversion H|done]. }
  split_and!; [done|done| |].
  - intros k q Hin. unfold agg in Hin.
    apply list_elem_of_fmap in Hin as ([k' g] & Heq & Hin).
    simpl in Heq. injection Heq as -> ->.
    apply groupby_groups in Hin as [-> Hne]. done.
  - rewrite concat_values_at.
    + apply reflexive_eq, snd_zip. lia.
    + by apply StronglySorted_lt_NoDup.
    + intros kv Hkv. apply Hkeys.
      rewrite <- (fst_zip keys vals) by lia. by apply list_elem_of_fmap_2.
Qed.

(** ** Daily totals *)

(** On a frame with rows the daily Series has an entry, so [idxmax] finds
    its day. *)
Lemma plot_consumo_por_dia_chart (data : DataFrame) :
  rows data ≠ [] →
  ∃ kv s,
    agg Series_sum (groupby (dt_date <$> (Data_hora <$> rows data))
                            (Consumo_kwh <$> rows data)) = kv :: s ∧
    plot_consumo_por_dia data =
      (inr (mkDailyChart (kv :: s) (argmax_from kv s)),
       {| rows := rows data;
          Dia := Some (dt_date <$> (Data_hora <$> rows data));
          Hora := Hora data |}).
Proof.
  intros Hne.
  destruct (groupby_agg_spec (dt_date ∘ Data_hora) Consumo_kwh Series_sum (rows data))
    as (_ & Hkeys & _).
  rewrite list_fmap_compose in Hkeys.
  unfold plot_consumo_por_dia, mbind, App_bind, eval. simpl.
  destruct (agg Series_sum _) as [|kv s] eqn:Hagg.
  { destruct (rows data) as [|r rs]; [done|].
    assert (dt_date (Data_hora r) ∈ @nil Z) as H
      by (apply Hkeys; exists r; split; [left|done]).
    inversion H. }
  by exists kv, s.
Qed.

(** C7, as the code has it.  On a frame with at least one row the daily
    chart is produced, and it is the Series of daily totals of the rows.
    For a consumption column of any number type and whatever [GroupBy.sum]
    computes on the values of one day, that Series has an entry; its days
    are in strictly increasing order, so each day occurs once; its days
    are exactly the calendar days of the timestamps; each entry is the
    reduction of the values of its day, in row order, of which there is at
    least one; and the values of the days of the Series, taken together,
    are the values of the column, each one once. *)
Theorem daily_totals_by_day (data : DataFrame) {V : Type} (group_sum : list V → V)
    (consumo : list V) :
  rows data ≠ [] →
  length consumo = length (rows data) →
  (∃ chart : DailyChart,
     (plot_consumo_por_dia data).1 = inr chart ∧
     consumo_diario chart =
       daily_totals Series_sum (Data_hora <$> rows data) (Consumo_kwh <$> rows data)) ∧
  daily_totals group_sum (Data_hora <$> rows data) consumo ≠ [] ∧
  StronglySorted Z.lt (daily_totals group_sum (Data_hora <$> rows data) consumo).*1 ∧
  (∀ d, d ∈ (daily_totals group_sum (Data_hora <$> rows data) consumo).*1 ↔
        ∃ r, r ∈ rows data ∧ on_day d (Data_hora r)) ∧
  (∀ d q, (d, q) ∈ daily_totals group_sum (Data_hora <$> rows data) consumo →
          day_values d (Data_hora <$> rows data) consumo ≠ [] ∧
          q = group_sum (day_values d (Data_hora <$> rows data) consumo)) ∧
  concat ((λ d, day_values d (Data_hora <$> rows data) consumo)
            <$> (daily_totals group_sum (Data_hora <$> rows data) consumo).*1)
    ≡ₚ consumo.
Proof.
  intros Hne Hlen.
  destruct (groupby_agg_columns group_sum (dt_date <$> (Data_hora <$> rows data)) consumo)
    as (Hsort & Hkeys & Hgroups & Hperm); [by rewrite !length_fmap|].
  fold (daily_totals group_sum (Data_hora <$> rows data) consumo)
    in Hsort, Hkeys, Hgroups, Hperm.
  assert (∀ d, d ∈ (daily_totals group_sum (Data_hora <$> rows data) consumo).*1 ↔
               ∃ r, r ∈ rows data ∧ on_day d (Data_hora r)) as Hdays.
  { intros d. rewrite Hkeys, <- list_fmap_compose, list_elem_of_fmap. split.
    - intros (r & -> & Hr). exists r. split; [done|]. by apply dt_date_on_day.
    - intros (r & Hr & Hd). exists r. split; [|done]. symmetry. by apply dt_date_on_day. }
  split_and!.
  - destruct (plot_consumo_por_dia_chart data Hne) as (kv & s & Hagg & ->).
    eexists. split; [reflexivity|]. simpl. unfold daily_totals. by rewrite Hagg.
  - destruct (rows data) as [|r rs] eqn:Hrows; [done|].
    intros Hnil.
    assert (dt_date (Data_hora r) ∈ (daily_totals group_sum (Data_hora <$> r :: rs) consumo).*1) as Hin.
    { apply Hdays. exists r. split; [left|]. by apply dt_date_on_day. }
    rewrite Hnil in Hin. inversion Hin.
  - done.
  - done.
  - intros d q Hin. apply Hgroups in Hin. by rewrite day_values_values_at in Hin.
  - etrans; [|exact Hperm]. apply reflexive_eq. f_equal.
    apply list_fmap_ext. intros i d _. symmetry. apply day_values_values_at.
Qed.

Lemma daily_totals_by_day_witness :
  (∃ chart : DailyChart,
     (plot_consumo_por_dia tenths).1 = inr chart ∧
     consumo_diario chart =
       daily_totals Series_sum (Data_hora <$> rows tenths) (Consumo_kwh <$> rows tenths)) ∧
  daily_totals F64.group_sum (Data_hora <$> rows tenths) tenths_Consumo_kwh ≠ [] ∧
  StronglySorted Z.lt
    (daily_totals F64.group_sum (Data_hora <$> rows tenths) tenths_Consumo_kwh).*1 ∧
  (∀ d, d ∈ (daily_totals F64.group_sum (Data_hora <$> rows tenths) tenths_Consumo_kwh).*1 ↔
        ∃ r, r ∈ rows tenths ∧ on_day d (Data_hora r)) ∧
  (∀ d q, (d, q) ∈ daily_totals F64.group_sum (Data_hora <$> rows tenths) tenths_Consumo_kwh →
          day_values d (Data_hora <$> rows tenths) tenths_Consumo_kwh ≠ [] ∧
          q = F64.group_sum (day_values d (Data_hora <$> rows tenths) tenths_Consumo_kwh)) ∧
  concat ((λ d, day_values d (Data_hora <$> rows tenths) tenths_Consumo_kwh)
            <$> (daily_totals F64.group_sum (Data_hora <$> rows tenths) tenths_Consumo_kwh).*1)
    ≡ₚ tenths_Consumo_kwh.
Proof.
  apply (daily_totals_by_day tenths F64.group_sum tenths_Consumo_kwh).
  - discriminate.
  - reflexivity.
Defined.

(** C7 as stated fails on [float64] values.  The three readings of
    [tenths] fall on one day; [GroupBy.sum] gives that day the total 0.6,
    so the daily totals add up to 0.6, while [Series.sum] of the
    consumption column is the next double, 0.6000000000000001. *)
Lemma daily_totals_rounding :
  daily_totals F64.group_sum (Data_hora <$> rows tenths) tenths_Consumo_kwh
    = [(jan_1, (6 / 10)%float)] ∧
  F64.Series_sum
    (daily_totals F64.group_sum (Data_hora <$> rows tenths) tenths_Consumo_kwh).*2
    = (6 / 10)%float ∧
  F64.Series_sum tenths_Consumo_kwh = PrimFloat.next_up (6 / 10) ∧
  F64.Series_sum
    (daily_totals F64.group_sum (Data_hora <$> rows tenths) tenths_Consumo_kwh).*2
    ≠ F64.Series_sum tenths_Consumo_kwh.
Proof.
  split_and!; [vm_compute; reflexivity..|].
  intros H. apply (f_equal (PrimFloat.eqb (6 / 10))) in H.
  vm_compute in H. discriminate.
Qed.

(** ** Bands *)

(** The three bands cut the hours of the day into three disjoint parts. *)
Lemma band_partition (t : Timestamp) :
  ∃ b, in_band b (dt_hour t) ∧ ∀ b', in_band b' (dt_hour t) → b' = b.
Proof.
  pose proof (dt_hour_range t) as Hr.
  destruct (decide (dt_hour t ≤ 5)%Z); [|destruct (decide (18 ≤ dt_hour t)%Z)].
  - exists Night. split; [simpl; lia|]. intros []; simpl; intros; [lia|done|lia].
  - exists Peak. split; [simpl; lia|]. intros []; simpl; intros; [done|lia|lia].
  - exists Other. split; [simpl; lia|]. intros []; simpl; intros; [lia|lia|done].
Qed.

(** The sums of the code are taken over the values of the three bands. *)
Lemma band_totals_values {V : Type} (series_sum : list V → V)
    (data_hora : list Timestamp) (consumo : list V) :
  band_totals series_sum (dt_hour <$> data_hora) consumo =
    [("Pico (18h-23h)", series_sum (band_values Peak data_hora consumo));
     ("Noturno (0h-5h)", series_sum (band_values Night data_hora consumo));
     ("Outros", series_sum (band_values Other data_hora consumo))].
Proof.
  unfold band_totals, band_values. cbn [zip zip_with].
  rewrite <- !list_fmap_compose, loc_loc_zip, !loc_zip.
  assert (∀ (P Q : Timestamp * V → Prop)
            (HP : ∀ tv, Decision (P tv)) (HQ : ∀ tv, Decision (Q tv)),
            (∀ tv, P tv ↔ Q tv) →
            series_sum (filter P (zip data_hora consumo)).*2 =
            series_sum (filter Q (zip data_hora consumo)).*2) as Hext.
  { intros P Q HP HQ HPQ. do 2 f_equal. by apply list_filter_iff. }
  rewrite (Hext (λ tv, (between 18 23 ∘ dt_hour) tv.1)
                (λ tv, in_band Peak (dt_hour tv.1)) _ _),
          (Hext (λ tv, (between 0 5 ∘ dt_hour) tv.1)
                (λ tv, in_band Night (dt_hour tv.1)) _ _),
          (Hext (λ tv, _ ∧ _) (λ tv, in_band Other (dt_hour tv.1)) _ _);
    [done|..];
    intros [t v]; simpl; pose proof (dt_hour_range t) as Hr;
    rewrite ?negb_True, !between_spec; lia.
Qed.

(** Every value of the column lies in one band. *)
Lemma band_values_all {V : Type} (data_hora : list Timestamp) (consumo : list V) :
  length consumo = length data_hora →
  band_values Peak data_hora consumo ++ band_values Night data_hora consumo
    ++ band_values Other data_hora consumo ≡ₚ consumo.
Proof.
  unfold band_values.
  induction data_hora as [|t ts IH] in consumo |- *; destruct consumo as [|v vs];
    simpl length; intros Hlen; try done.
  cbn [zip zip_with]. rewrite !filter_cons. cbn [fst].
  pose proof (dt_hour_range t) as Hr.
  specialize (IH vs ltac:(lia)).
  repeat case_decide; unfold in_band in *; try lia; rewrite ?fmap_cons; cbn [snd].
  - cbn [app]. by constructor.
  - cbn [app]. rewrite <- Permutation_middle. by constructor.
  - rewrite app_assoc, <- Permutation_middle, <- app_assoc. by constructor.
Qed.

(** C8, as the code has it.  The band chart is the three sums of the code
    on the hours of the rows.  For a consumption column of any number type
    and whatever [Series.sum] computes, these are three entries in the
    order peak, night, other, also when a band has no row; each is the
    reduction of the values of the rows whose hour lies in that band (18
    to 23, 0 to 5, 6 to 17), in row order; the values of the three bands,
    taken together, are the values of the column, each one once; and the
    hour of every timestamp is its hour of the day and lies in exactly one
    band. *)
Theorem band_totals_by_band (data : DataFrame) {V : Type} (series_sum : list V → V)
    (consumo : list V) :
  length consumo = length (rows data) →
  (plot_distribuicao_consumo data).1 =
    inr (band_totals Series_sum (dt_hour <$> (Data_hora <$> rows data))
           (Consumo_kwh <$> rows data)) ∧
  band_totals series_sum (dt_hour <$> (Data_hora <$> rows data)) consumo =
    [("Pico (18h-23h)", series_sum (band_values Peak (Data_hora <$> rows data) consumo));
     ("Noturno (0h-5h)", series_sum (band_values Night (Data_hora <$> rows data) consumo));
     ("Outros", series_sum (band_values Other (Data_hora <$> rows data) consumo))] ∧
  band_values Peak (Data_hora <$> rows data) consumo
    ++ band_values Night (Data_hora <$> rows data) consumo
    ++ band_values Other (Data_hora <$> rows data) consumo ≡ₚ consumo ∧
  ∀ r, r ∈ rows data →
    (∀ h, at_hour h (Data_hora r) ↔ h = dt_hour (Data_hora r)) ∧
    ∃ b, in_band b (dt_hour (Data_hora r)) ∧
         ∀ b', in_band b' (dt_hour (Data_hora r)) → b' = b.
Proof.
  intros Hlen. split_and!.
  - reflexivity.
  - apply band_totals_values.
  - apply band_values_all. by rewrite length_fmap.
  - intros r _. split; [|apply band_partition].
    intros h. rewrite <- dt_hour_at_hour. split; congruence.
Qed.

Lemma band_totals_by_band_witness :
  (plot_distribuicao_consumo tenths).1 =
    inr (band_totals Series_sum (dt_hour <$> (Data_hora <$> rows tenths))
           (Consumo_kwh <$> rows tenths)) ∧
  band_totals F64.Series_sum (dt_hour <$> (Data_hora <$> rows tenths)) tenths_Consumo_kwh =
    [("Pico (18h-23h)",
      F64.Series_sum (band_values Peak (Data_hora <$> rows tenths) tenths_Consumo_kwh));
     ("Noturno (0h-5h)",
      F64.Series_sum (band_values Night (Data_hora <$> rows tenths) tenths_Consumo_kwh));
     ("Outros",
      F64.Series_sum (band_values Other (Data_hora <$> rows tenths) tenths_Consumo_kwh))] ∧
  band_values Peak (Data_hora <$> rows tenths) tenths_Consumo_kwh
    ++ band_values Night (Data_hora <$> rows tenths) tenths_Consumo_kwh
    ++ band_values Other (Data_hora <$> rows tenths) tenths_Consumo_kwh
    ≡ₚ tenths_Consumo_kwh ∧
  ∀ r, r ∈ rows tenths →
    (∀ h, at_hour h (Data_hora r) ↔ h = dt_hour (Data_hora r)) ∧
    ∃ b, in_band b (dt_hour (Data_hora r)) ∧
         ∀ b', in_band b' (dt_hour (Data_hora r)) → b' = b.
Proof.
  apply (band_totals_by_band tenths F64.Series_sum tenths_Consumo_kwh).
  reflexivity.
Defined.

(** C8 as stated fails on [float64] values.  Of the three readings of
    [tenths] the one of 19:00 is in the peak, the one of 02:00 in the
    night and the one of 12:00 in neither, so the band totals are 0.2,
    0.3 and 0.1; they add up to 0.6, while [Series.sum] of the consumption
    column is the next double, 0.6000000000000001. *)
Lemma band_totals_rounding :
  band_totals F64.Series_sum (dt_hour <$> (Data_hora <$> rows tenths)) tenths_Consumo_kwh
    = [("Pico (18h-23h)", (2 / 10)%float); ("Noturno (0h-5h)", (3 / 10)%float);
       ("Outros", (1 / 10)%float)] ∧
  F64.Series_sum
    (band_totals F64.Series_sum (dt_hour <$> (Data_hora <$> rows tenths))
       tenths_Consumo_kwh).*2
    = (6 / 10)%float ∧
  F64.Series_sum tenths_Consumo_kwh = PrimFloat.next_up (6 / 10) ∧
  F64.Series_sum
    (band_totals F64.Series_sum (dt_hour <$> (Data_hora <$> rows tenths))
       tenths_Consumo_kwh).*2
    ≠ F64.Series_sum tenths_Consumo_kwh.
Proof.
  split_and!; [vm_compute; reflexivity..|].
  intros H. apply (f_equal (PrimFloat.eqb (6 / 10))) in H.
  vm_compute in H. discriminate.
Qed.

(** * Further properties of the code *)

(** ** Header normalisation *)

Module StrFacts.
Import Str.

Lemma is_space_upper (a : ascii) : is_space (upper_char a) = is_space a.
Proof. destruct a as [[] [] [] [] [] [] [] []]; reflexivity. Qed.

Lemma is_space_lower (a : ascii) : is_space (lower_char a) = is_space a.
Proof. destruct a as [[] [] [] [] [] [] [] []]; reflexivity. Qed.

Lemma upper_upper (a : ascii) : upper_char (upper_char a) = upper_char a.
Proof. destruct a as [[] [] [] [] [] [] [] []]; reflexivity. Qed.

Lemma lower_lower (a : ascii) : lower_char (lower_char a) = lower_char a.
Proof. destruct a as [[] [] [] [] [] [] [] []]; reflexivity. Qed.

Lemma lower_upper (a : ascii) : lower_char (upper_char a) = lower_char a.
Proof. destruct a as [[] [] [] [] [] [] [] []]; reflexivity. Qed.

Lemma underscore_upper (a : ascii) : underscore (upper_char a) = upper_char (underscore a).
Proof. destruct a as [[] [] [] [] [] [] [] []]; reflexivity. Qed.

Lemma underscore_fix_upper (a : ascii) :
  underscore (upper_char (underscore a)) = upper_char (underscore a).
Proof. destruct a as [[] [] [] [] [] [] [] []]; reflexivity. Qed.

Lemma underscore_fix_lower (a : ascii) :
  underscore (lower_char (underscore a)) = lower_char (underscore a).
Proof. destruct a as [[] [] [] [] [] [] [] []]; reflexivity. Qed.

Lemma is_space_underscore (a : ascii) :
  is_space a = false → is_space (underscore a) = false.
Proof. destruct a as [[] [] [] [] [] [] [] []]; intros H; try reflexivity; discriminate. Qed.

Lemma map_chars_compose (f g : ascii → ascii) (s : string) :
  map_chars f (map_chars g s) = map_chars (f ∘ g) s.
Proof. induction s as [|a s IH]; simpl; [done|]. by rewrite IH. Qed.

Lemma map_chars_ext (f g : ascii → ascii) (s : string) :
  (∀ a, f a = g a) → map_chars f s = map_chars g s.
Proof. intros H. induction s as [|a s IH]; simpl; [done|]. by rewrite H, IH. Qed.

Lemma map_chars_empty (f : ascii → ascii) (s : string) :
  map_chars f s = EmptyString ↔ s = EmptyString.
Proof. by destruct s. Qed.

(** A case change commutes with stripping. *)
Lemma lstrip_map (f : ascii → ascii) (s : string) :
  (∀ a, is_space (f a) = is_space a) →
  lstrip (map_chars f s) = map_chars f (lstrip s).
Proof.
  intros Hf. induction s as [|a s IH]; simpl; [done|].
  rewrite Hf. by destruct (is_space a).
Qed.

Lemma rstrip_map (f : ascii → ascii) (s : string) :
  (∀ a, is_space (f a) = is_space a) →
  rstrip (map_chars f s) = map_chars f (rstrip s).
Proof.
  intros Hf. induction s as [|a s IH]; simpl; [done|].
  rewrite IH, Hf. destruct (rstrip s); simpl; [|done].
  by destruct (is_space a).
Qed.

Lemma strip_map (f : ascii → ascii) (s : string) :
  (∀ a, is_space (f a) = is_space a) →
  strip (map_chars f s) = map_chars f (strip s).
Proof. intros Hf. unfold strip. by rewrite lstrip_map, rstrip_map. Qed.

Lemma lstrip_clean (s : string) : starts_clean (lstrip s).
Proof.
  induction s as [|a s IH]; simpl; [done|].
  destruct (is_space a) eqn:Ha; [done|]. exact Ha.
Qed.

Lemma lstrip_fix (s : string) : starts_clean s → lstrip s = s.
Proof. destruct s as [|a s]; simpl; [done|]. by intros ->. Qed.

Lemma rstrip_clean (s : string) : starts_clean s → starts_clean (rstrip s).
Proof.
  destruct s as [|a s]; simpl; [done|]. intros Ha.
  destruct (rstrip s); simpl; [by rewrite Ha|done].
Qed.

Lemma rstrip_rstrip (s : string) : rstrip (rstrip s) = rstrip s.
Proof.
  induction s as [|a s IH]; simpl; [done|].
  destruct (rstrip s) as [|b r] eqn:Hr.
  - destruct (is_space a) eqn:Ha; simpl; [done|]. by rewrite Ha.
  - cbn [rstrip]. fold rstrip. cbn [rstrip] in IH. fold rstrip in IH.
    by rewrite IH.
Qed.

Lemma strip_starts_clean (s : string) : starts_clean (strip s).
Proof. apply rstrip_clean, lstrip_clean. Qed.

Lemma strip_rstrip_fix (s : string) : rstrip (strip s) = strip s.
Proof. apply rstrip_rstrip. Qed.

(** A character-wise change that keeps non-blank characters non-blank
    keeps a stripped string stripped. *)
Lemma starts_clean_map (f : ascii → ascii) (s : string) :
  (∀ a, is_space a = false → is_space (f a) = false) →
  starts_clean s → starts_clean (map_chars f s).
Proof. intros Hf. destruct s; simpl; [done|]. apply Hf. Qed.

Lemma rstrip_fix_map (f : ascii → ascii) (s : string) :
  (∀ a, is_space a = false → is_space (f a) = false) →
  rstrip s = s → rstrip (map_chars f s) = map_chars f s.
Proof.
  intros Hf. induction s as [|a s IH]; simpl; [done|].
  destruct (rstrip s) as [|b r] eqn:Hr.
  - destruct (is_space a) eqn:Ha; [done|]. intros [= <-]. simpl.
    by rewrite Hf.
  - intros [= Hs]. rewrite IH by done. rewrite <- Hs. done.
Qed.

Lemma capitalize_clean (s : string) : starts_clean s → starts_clean (capitalize s).
Proof. destruct s; simpl; [done|]. by rewrite is_space_upper. Qed.

Lemma rstrip_fix_capitalize (s : string) :
  rstrip s = s → rstrip (capitalize s) = capitalize s.
Proof.
  destruct s as [|a s]; simpl; [done|].
  rewrite (rstrip_map lower_char) by apply is_space_lower.
  destruct (rstrip s) as [|b r] eqn:Hr.
  - destruct (is_space a) eqn:Ha; [done|]. intros [= <-]. simpl.
    by rewrite is_space_upper, Ha.
  - intros [= Hs]. by rewrite <- Hs.
Qed.

End StrFacts.

Lemma replace_underscore (s : string) :
  Str.replace " " "_" s = Str.map_chars underscore s.
Proof. reflexivity. Qed.

Lemma capitalize_capitalize (s : string) :
  Str.capitalize (Str.capitalize s) = Str.capitalize s.
Proof.
  destruct s as [|a s]; simpl; [done|].
  rewrite StrFacts.upper_upper, StrFacts.map_chars_compose.
  f_equal. apply StrFacts.map_chars_ext, StrFacts.lower_lower.
Qed.

Lemma underscore_capitalize_fix (s : string) :
  Str.map_chars underscore (Str.capitalize (Str.map_chars underscore s)) =
  Str.capitalize (Str.map_chars underscore s).
Proof.
  destruct s as [|a s]; simpl; [done|].
  rewrite StrFacts.underscore_fix_upper. f_equal.
  rewrite !StrFacts.map_chars_compose.
  apply StrFacts.map_chars_ext. intros b. apply StrFacts.underscore_fix_lower.
Qed.

Lemma strip_normalize (s : string) : Str.strip (normalize s) = normalize s.
Proof.
  unfold normalize. rewrite replace_underscore. unfold Str.strip at 1.
  rewrite StrFacts.lstrip_fix.
  - apply StrFacts.rstrip_fix_capitalize, StrFacts.rstrip_fix_map.
    + apply StrFacts.is_space_underscore.
    + apply StrFacts.strip_rstrip_fix.
  - apply StrFacts.capitalize_clean, StrFacts.starts_clean_map.
    + apply StrFacts.is_space_underscore.
    + apply StrFacts.strip_starts_clean.
Qed.

Lemma normalize_normalize (s : string) : normalize (normalize s) = normalize s.
Proof.
  unfold normalize at 1. rewrite strip_normalize.
  unfold normalize. rewrite !replace_underscore.
  by rewrite underscore_capitalize_fix, capitalize_capitalize.
Qed.

Lemma ascii_only_map_chars (f : ascii → ascii) (s : string) :
  (∀ a, (nat_of_ascii a <? 128)%nat → (nat_of_ascii (f a) <? 128)%nat) →
  ascii_only s → ascii_only (Str.map_chars f s).
Proof.
  intros Hf. induction s as [|a s IH]; simpl; [done|].
  rewrite !andb_True. intros [Ha Hs]. split; [by apply Hf|by apply IH].
Qed.

Lemma ascii_only_lstrip (s : string) : ascii_only s → ascii_only (Str.lstrip s).
Proof.
  induction s as [|a s IH]; simpl; [done|].
  destruct (Str.is_space a); simpl; [|done].
  rewrite andb_True. intros [_ Hs]. by apply IH.
Qed.

Lemma ascii_only_rstrip (s : string) : ascii_only s → ascii_only (Str.rstrip s).
Proof.
  induction s as [|a s IH]; simpl; [done|].
  rewrite andb_True. intros [Ha Hs]. specialize (IH Hs).
  destruct (Str.rstrip s); simpl.
  - destruct (Str.is_space a); simpl; [done|]. by rewrite andb_True.
  - simpl in IH. by rewrite andb_True.
Qed.

Lemma ascii_upper_char (a : ascii) :
  (nat_of_ascii a <? 128)%nat → (nat_of_ascii (Str.upper_char a) <? 128)%nat.
Proof. destruct a as [[] [] [] [] [] [] [] []]; vm_compute; done. Qed.

Lemma ascii_lower_char (a : ascii) :
  (nat_of_ascii a <? 128)%nat → (nat_of_ascii (Str.lower_char a) <? 128)%nat.
Proof. destruct a as [[] [] [] [] [] [] [] []]; vm_compute; done. Qed.

Lemma ascii_underscore (a : ascii) :
  (nat_of_ascii a <? 128)%nat → (nat_of_ascii (underscore a) <? 128)%nat.
Proof. destruct a as [[] [] [] [] [] [] [] []]; vm_compute; done. Qed.

Lemma ascii_only_capitalize (s : string) : ascii_only s → ascii_only (Str.capitalize s).
Proof.
  destruct s as [|a s]; simpl; [done|].
  rewrite !andb_True. intros [Ha Hs]. split; [by apply ascii_upper_char|].
  apply ascii_only_map_chars; [apply ascii_lower_char|done].
Qed.

Lemma ascii_only_normalize (s : string) : ascii_only s → ascii_only (normalize s).
Proof.
  intros Hs. unfold normalize. rewrite replace_underscore.
  apply ascii_only_capitalize, ascii_only_map_chars; [apply ascii_underscore|].
  by apply ascii_only_rstrip, ascii_only_lstrip.
Qed.

(** X1. On a header of ASCII characters the normalisation yields a label
    of ASCII characters, and normalising that label again leaves it as it
    is: a header that is already in normal form is matched as it stands. *)
Theorem normalize_idempotent (s : string) :
  ascii_only s →
  ascii_only (normalize s) ∧ normalize (normalize s) = normalize s.
Proof.
  intros Hs. split; [by apply ascii_only_normalize|].
  apply normalize_normalize.
Qed.

Lemma normalize_idempotent_witness :
  ascii_only (normalize " custo total ") ∧
  normalize (normalize " custo total ") = normalize " custo total ".
Proof. apply (normalize_idempotent " custo total "). exact I. Defined.

Lemma upper_lower (a : ascii) : Str.upper_char (Str.lower_char a) = Str.upper_char a.
Proof. destruct a as [[] [] [] [] [] [] [] []]; reflexivity. Qed.

Lemma underscore_lower (a : ascii) :
  underscore (Str.lower_char a) = Str.lower_char (underscore a).
Proof. destruct a as [[] [] [] [] [] [] [] []]; reflexivity. Qed.

Lemma capitalize_map_case (f : ascii → ascii) (s : string) :
  (∀ a, Str.upper_char (f a) = Str.upper_char a) →
  (∀ a, Str.lower_char (f a) = Str.lower_char a) →
  Str.capitalize (Str.map_chars f s) = Str.capitalize s.
Proof.
  intros Hu Hl. destruct s as [|a s]; simpl; [done|].
  rewrite Hu, StrFacts.map_chars_compose. f_equal.
  apply StrFacts.map_chars_ext. intros b. apply Hl.
Qed.

Lemma normalize_map_case (f : ascii → ascii) (s : string) :
  (∀ a, Str.is_space (f a) = Str.is_space a) →
  (∀ a, underscore (f a) = f (underscore a)) →
  (∀ a, Str.upper_char (f a) = Str.upper_char a) →
  (∀ a, Str.lower_char (f a) = Str.lower_char a) →
  normalize (Str.map_chars f s) = normalize s.
Proof.
  intros Hs Hus Hu Hl. unfold normalize.
  rewrite StrFacts.strip_map by done. rewrite !replace_underscore.
  rewrite StrFacts.map_chars_compose.
  rewrite (StrFacts.map_chars_ext (underscore ∘ f) (f ∘ underscore)) by (intros a; apply Hus).
  rewrite <- StrFacts.map_chars_compose.
  by apply capitalize_map_case.
Qed.

(** X2. The case of the letters of a header plays no part in the
    matching: a header in upper case, or in lower case, normalises as the
    header itself. *)
Theorem normalize_ignores_case (s : string) :
  normalize (Str.map_chars Str.upper_char s) = normalize s ∧
  normalize (Str.map_chars Str.lower_char s) = normalize s.
Proof.
  split; apply normalize_map_case.
  - apply StrFacts.is_space_upper.
  - apply StrFacts.underscore_upper.
  - apply StrFacts.upper_upper.
  - apply StrFacts.lower_upper.
  - apply StrFacts.is_space_lower.
  - apply underscore_lower.
  - apply upper_lower.
  - apply StrFacts.lower_lower.
Qed.

Lemma lstrip_app_l (w s : string) :
  all_space w → Str.lstrip (w +:+ s) = Str.lstrip s.
Proof.
  induction w as [|a w IH]; simpl; [done|].
  intros [Ha Hw]%andb_True. apply Is_true_true in Ha. rewrite Ha. by apply IH.
Qed.

Lemma rstrip_all_space (w : string) : all_space w → Str.rstrip w = EmptyString.
Proof.
  induction w as [|a w IH]; simpl; [done|].
  intros [Ha Hw]%andb_True. apply Is_true_true in Ha. by rewrite IH, Ha.
Qed.

Lemma rstrip_app_r (s w : string) :
  all_space w → Str.rstrip (s +:+ w) = Str.rstrip s.
Proof.
  intros Hw. induction s as [|a s IH]; simpl.
  - by apply rstrip_all_space.
  - by rewrite IH.
Qed.

Lemma lstrip_app_r (s w : string) :
  all_space w →
  Str.lstrip (s +:+ w) = Str.lstrip s +:+ w ∨
  (Str.lstrip (s +:+ w) = EmptyString ∧ Str.lstrip s = EmptyString).
Proof.
  intros Hw. induction s as [|a s IH]; simpl.
  - right. split; [|done]. clear -Hw.
    induction w as [|a w IH]; simpl; [done|].
    apply andb_True in Hw as [Ha Hw]. apply Is_true_true in Ha. rewrite Ha. by apply IH.
  - destruct (Str.is_space a); [exact IH|by left].
Qed.

Lemma strip_padding (w1 w2 s : string) :
  all_space w1 → all_space w2 → Str.strip (w1 +:+ s +:+ w2) = Str.strip s.
Proof.
  intros H1 H2. unfold Str.strip. rewrite lstrip_app_l by done.
  destruct (lstrip_app_r s w2 H2) as [->|[-> ->]]; [|done].
  by apply rstrip_app_r.
Qed.

(** X3. Blanks before and after a header play no part in the matching. *)
Theorem normalize_ignores_padding (w1 w2 s : string) :
  all_space w1 → all_space w2 → normalize (w1 +:+ s +:+ w2) = normalize s.
Proof. intros H1 H2. unfold normalize. by rewrite strip_padding. Qed.

Lemma normalize_ignores_padding_witness :
  normalize ("  " +:+ "custo total" +:+ " ") = normalize "custo total".
Proof. apply (normalize_ignores_padding "  " " " "custo total"); exact I. Defined.

(** ** The loader, further *)

Lemma load_data_cases
    (pd_to_datetime : list Cell → list (option Timestamp))
    (pd_to_numeric : list Cell → list (option Q))
    (file : UploadedFile) :
  (∃ e, load_data pd_to_datetime pd_to_numeric (Some file) = ([e], None)) ∨
  (∃ rs, load_data pd_to_datetime pd_to_numeric (Some file)
           = ([], Some (frame_of_rows rs))).
Proof.
  destruct file as [e|raw]; simpl; [left; eauto|].
  unfold load_frame, load_labelled.
  destruct (issubset _ _); simpl; [|left; eauto].
  destruct (getitem _ "Data/hora") as [?|[?|?]]; simpl; [left; eauto| |left; eauto].
  destruct (getitem _ "Consumo_kwh") as [?|[?|?]]; simpl; [left; eauto| |left; eauto].
  destruct (getitem _ "Custo_total") as [?|[?|?]]; simpl; [left; eauto| |left; eauto].
  right. eauto.
Qed.

(** X5. A load of an uploaded file shows at most one error: either it
    shows one error and gives no frame, or it shows none and gives a frame
    that has the three columns only; and the error shown names the missing
    columns exactly when the file was read and its normalised header lacks
    a required label. *)
Theorem load_data_outcome
    (pd_to_datetime : list Cell → list (option Timestamp))
    (pd_to_numeric : list Cell → list (option Q))
    (file : UploadedFile) :
  ((∃ e, load_data pd_to_datetime pd_to_numeric (Some file) = ([e], None)) ∨
   (∃ rs, load_data pd_to_datetime pd_to_numeric (Some file)
            = ([], Some (frame_of_rows rs)))) ∧
  (load_data pd_to_datetime pd_to_numeric (Some file)
     = ([MissingColumns required_columns], None) ↔
   ∃ raw, file = inr raw ∧
          issubset required_columns (normalize <$> columns raw) = false).
Proof.
  split; [apply load_data_cases|].
  destruct file as [e|raw].
  { simpl. split; [done|]. by intros (raw & [=] & _). }
  assert ((∃ raw0, (inr raw : UploadedFile) = inr raw0 ∧
                   issubset required_columns (normalize <$> columns raw0) = false) ↔
          issubset required_columns (normalize <$> columns raw) = false) as ->.
  { split; [by intros (raw0 & [= <-] & ?)|]. intros; by exists raw. }
  unfold load_data.
  change (inr raw ≫= load_frame pd_to_datetime pd_to_numeric)
    with (load_frame pd_to_datetime pd_to_numeric raw).
  unfold load_frame, load_labelled. fold (normalized raw). rewrite columns_normalized.
  destruct (issubset required_columns (normalize <$> columns raw)); cbn [negb].
  - split; [|done].
    destruct (getitem _ "Data/hora") as [?|[?|?]]; simpl; [done| |done].
    destruct (getitem _ "Consumo_kwh") as [?|[?|?]]; simpl; [done| |done].
    destruct (getitem _ "Custo_total") as [?|[?|?]]; simpl; done.
  - done.
Qed.

(** ** The date filter, further *)

Lemma filter_all {A : Type} (P : A → Prop) `{!∀ x, Decision (P x)} (l : list A) :
  (∀ x, x ∈ l → P x) → filter P l = l.
Proof.
  intros Hall. induction l as [|x l IH]; [done|].
  rewrite filter_cons, decide_True by (apply Hall; left).
  f_equal. apply IH. intros y Hy. apply Hall. by right.
Qed.

Lemma loc_none {A B : Type} (p : A → bool) (l : list A) (k : list B) :
  (∀ x, x ∈ l → p x = false) → loc (p <$> l) k = [].
Proof.
  intros H. induction l as [|x l IH] in k, H |- *; [done|].
  destruct k as [|y k]; [done|]. cbn [fmap list_fmap loc].
  rewrite (H x) by left. apply IH. intros z Hz. apply H. by right.
Qed.

(** X6. A range whose end lies before its start selects nothing: on a
    frame of time-zone naive timestamps, which the bounds can be compared
    with, the filtered frame has no rows, and its derived columns, where
    present, are empty. *)
Theorem display_filtered_data_reversed (data : DataFrame) (start_date end_date : DateLike) :
  (to_datetime_scalar end_date < to_datetime_scalar start_date)%Z →
  display_filtered_data data start_date end_date =
    {| rows := []; Dia := (λ _, []) <$> Dia data; Hora := (λ _, []) <$> Hora data |}.
Proof.
  intros Hrev. unfold display_filtered_data.
  assert (∀ B (k : list B),
            loc ((λ r, (to_datetime_scalar start_date <=? Data_hora r)%Z
                       && (Data_hora r <=? to_datetime_scalar end_date)%Z)
                 <$> rows data) k = []) as Hnone.
  { intros B k. apply loc_none. intros r _.
    apply andb_false_iff. rewrite !Z.leb_gt. lia. }
  rewrite Hnone. f_equal.
  - destruct (Dia data); simpl; [by rewrite Hnone|done].
  - destruct (Hora data); simpl; [by rewrite Hnone|done].
Qed.

Lemma display_filtered_data_reversed_witness :
  display_filtered_data scenario (ADate jan_2) (ADate jan_1) =
    {| rows := []; Dia := (λ _, []) <$> Dia scenario; Hora := (λ _, []) <$> Hora scenario |}.
Proof. apply (display_filtered_data_reversed scenario (ADate jan_2) (ADate jan_1)). reflexivity. Defined.

(** X7. Filtering selects rows without reordering them, and filtering a
    filtered frame is filtering once with the later of the two starts and
    the earlier of the two ends; so the order of two filters does not
    matter and a filter applied twice is the filter applied once. *)
Theorem display_filtered_data_compose (data : DataFrame) (s1 e1 s2 e2 : DateLike) :
  sublist (rows (display_filtered_data data s1 e1)) (rows data) ∧
  rows (display_filtered_data (display_filtered_data data s1 e1) s2 e2) =
    rows (display_filtered_data data
            (ATimestamp (Z.max (to_datetime_scalar s1) (to_datetime_scalar s2)))
            (ATimestamp (Z.min (to_datetime_scalar e1) (to_datetime_scalar e2)))) ∧
  rows (display_filtered_data (display_filtered_data data s1 e1) s2 e2) =
    rows (display_filtered_data (display_filtered_data data s2 e2) s1 e1) ∧
  rows (display_filtered_data (display_filtered_data data s1 e1) s1 e1) =
    rows (display_filtered_data data s1 e1).
Proof.
  rewrite !display_filtered_data_rows, !list_filter_filter.
  split_and!.
  - apply sublist_filter.
  - apply list_filter_iff. intros r. simpl. lia.
  - apply list_filter_iff. intros r. simpl. lia.
  - apply list_filter_iff. intros r. simpl. lia.
Qed.

(** X8. A range that contains every timestamp keeps every row, and the
    totals of the first tab are then the totals of the whole frame. *)
Theorem display_filtered_data_covering (data : DataFrame) (start_date end_date : DateLike) :
  (∀ r, r ∈ rows data →
        (to_datetime_scalar start_date ≤ Data_hora r ≤ to_datetime_scalar end_date)%Z) →
  rows (display_filtered_data data start_date end_date) = rows data.
Proof.
  intros Hall. rewrite display_filtered_data_rows. apply filter_all.
  intros r Hr. specialize (Hall r Hr). lia.
Qed.

Lemma display_filtered_data_covering_witness :
  rows (display_filtered_data scenario (ADate jan_1) (ADate (jan_2 + 1))) = rows scenario.
Proof.
  apply (display_filtered_data_covering scenario (ADate jan_1) (ADate (jan_2 + 1))).
  intros r Hr. unfold scenario, scenario_rows in Hr. simpl in Hr.
  repeat (apply elem_of_cons in Hr as [->|Hr]); [vm_compute; split; discriminate..|].
  inversion Hr.
Defined.

(** ** Derived columns stay in step with the rows *)

Lemma loc_fmap_rows {B : Type} (p : Row → bool) (g : Row → B) (rs : list Row) :
  loc (p <$> rs) (g <$> rs) = g <$> loc (p <$> rs) rs.
Proof. by rewrite loc_fmap, loc_self. Qed.

Lemma aligned_loaded (rs : list Row) : aligned (frame_of_rows rs).
Proof. by split. Qed.

(** X9. The derived columns of a frame, where present, are the days and
    the hours of its timestamps: this holds for a loaded frame and is kept
    by the date filter and by each of the three plotting functions. *)
Theorem aligned_preserved (data : DataFrame) (start_date end_date : DateLike) :
  aligned data →
  aligned (display_filtered_data data start_date end_date) ∧
  aligned (plot_consumo_por_dia data).2 ∧
  aligned (plot_consumo_horario_medio data).2 ∧
  aligned (plot_distribuicao_consumo data).2.
Proof.
  intros [HDia HHora]. split_and!.
  - split; simpl; intros v Hv.
    + destruct (Dia data) as [d|] eqn:Hd; [|done]. simpl in Hv.
      injection Hv as <-. rewrite (HDia d eq_refl), <- !list_fmap_compose.
      apply loc_fmap_rows.
    + destruct (Hora data) as [h|] eqn:Hh; [|done]. simpl in Hv.
      injection Hv as <-. rewrite (HHora h eq_refl), <- !list_fmap_compose.
      apply loc_fmap_rows.
  - unfold plot_consumo_por_dia, mbind, App_bind, eval. simpl.
    destruct (idxmax _); simpl; (split; simpl; [by intros v [= <-]|exact HHora]).
  - split; simpl; [exact HDia|by intros v [= <-]].
  - split; simpl; [exact HDia|by intros v [= <-]].
Qed.

Lemma aligned_preserved_witness :
  aligned (display_filtered_data (plot_consumo_por_dia scenario).2 (ADate jan_1) (ADate jan_1)) ∧
  aligned (plot_consumo_por_dia (plot_consumo_por_dia scenario).2).2 ∧
  aligned (plot_consumo_horario_medio (plot_consumo_por_dia scenario).2).2 ∧
  aligned (plot_distribuicao_consumo (plot_consumo_por_dia scenario).2).2.
Proof.
  apply (aligned_preserved (plot_consumo_por_dia scenario).2 (ADate jan_1) (ADate jan_1)).
  split; simpl; intros v Hv; [by injection Hv as <-|discriminate].
Defined.

(** ** The day of the largest total *)

Lemma argmax_from_spec (best : Z * Q) (s : list (Z * Q)) :
  ∃ (i : nat) (kv : Z * Q),
    (best :: s) !! i = Some kv ∧
    kv.1 = argmax_from best s ∧
    (∀ j x, (best :: s) !! j = Some x → (x.2 <= kv.2)%Q) ∧
    (∀ j x, (j < i)%nat → (best :: s) !! j = Some x → (x.2 < kv.2)%Q).
Proof.
  induction s as [|kv1 s IH] in best |- *.
  - exists 0%nat, best. split_and!; [done|done| |intros; lia].
    intros [|j] x Hx; simpl in Hx; [|done]. injection Hx as <-. apply Qle_refl.
  - cbn [argmax_from]. destruct (Qle_bool kv1.2 best.2) eqn:Hle.
    + apply Qle_bool_iff in Hle.
      destruct (IH best) as (i & kv & Hi & Hk & Hmax & Hfirst).
      destruct i as [|i].
      * simpl in Hi. injection Hi as <-.
        exists 0%nat, best. split_and!; [done|done| |intros; lia].
        intros [|[|j]] x Hx; simpl in Hx.
        -- injection Hx as <-. apply Qle_refl.
        -- by injection Hx as <-.
        -- by apply (Hmax (S j) x).
      * exists (S (S i)), kv. split_and!; [done|done| |].
        -- intros [|[|j]] x Hx; simpl in Hx.
           ++ injection Hx as <-. by apply (Hmax 0%nat best).
           ++ injection Hx as <-. eapply Qle_trans; [exact Hle|]. by apply (Hmax 0%nat best).
           ++ by apply (Hmax (S j) x).
        -- intros [|[|j]] x Hj Hx; simpl in Hx.
           ++ injection Hx as <-. apply (Hfirst 0%nat best); [lia|done].
           ++ injection Hx as <-. eapply Qle_lt_trans; [exact Hle|].
              apply (Hfirst 0%nat best); [lia|done].
           ++ apply (Hfirst (S j) x); [lia|done].
    + assert (best.2 < kv1.2)%Q as Hlt.
      { apply Qnot_le_lt. intros H. apply Qle_bool_iff in H. congruence. }
      destruct (IH kv1) as (i & kv & Hi & Hk & Hmax & Hfirst).
      destruct i as [|i].
      * simpl in Hi. injection Hi as <-.
        exists 1%nat, kv1. split_and!; [done|done| |].
        -- intros [|[|j]] x Hx; simpl in Hx.
           ++ injection Hx as <-. by apply Qlt_le_weak.
           ++ injection Hx as <-. apply Qle_refl.
           ++ by apply (Hmax (S j) x).
        -- intros [|j] x Hj Hx; [|lia]. simpl in Hx. by injection Hx as <-.
      * assert (kv1.2 < kv.2)%Q as Hlt1 by (apply (Hfirst 0%nat kv1); [lia|done]).
        exists (S (S i)), kv. split_and!; [done|done| |].
        -- intros [|[|j]] x Hx; simpl in Hx.
           ++ injection Hx as <-. apply Qlt_le_weak. by eapply Qlt_trans.
           ++ injection Hx as <-. by apply Qlt_le_weak.
           ++ by apply (Hmax (S j) x).
        -- intros [|[|j]] x Hj Hx; simpl in Hx.
           ++ injection Hx as <-. by eapply Qlt_trans.
           ++ by injection Hx as <-.
           ++ apply (Hfirst (S j) x); [lia|done].
Qed.

Lemma sorted_keys_lookup (l : list (Z * Q)) (i j : nat) (a b : Z * Q) :
  StronglySorted Z.lt l.*1 → l !! i = Some a → l !! j = Some b →
  (i ≤ j)%nat → (a.1 ≤ b.1)%Z.
Proof.
  induction l as [|x l IH] in i, j |- *; intros Hs Hi Hj Hij; [done|].
  rewrite fmap_cons in Hs. apply StronglySorted_cons in Hs as [Hall Hs].
  destruct i as [|i], j as [|j]; simpl in *; simplify_eq; [lia| |lia|].
  - assert (b.1 ∈ l.*1) as Hb
      by (apply list_elem_of_fmap_2; by eapply list_elem_of_lookup_2).
    eapply Forall_forall in Hall; [|exact Hb]. lia.
  - apply (IH i j); [done..|lia].
Qed.

(** X10. On a frame with at least one row the day reported as the day of
    the largest consumption is a day of the chart, no day has a larger
    total, and every earlier day has a strictly smaller one: among equal
    maxima the first day is reported. *)
Theorem dia_maior_consumo_first_max (data : DataFrame) :
  rows data ≠ [] →
  ∃ (chart : DailyChart) (qmax : Q),
    (plot_consumo_por_dia data).1 = inr chart ∧
    (dia_maior_consumo chart, qmax) ∈ consumo_diario chart ∧
    ∀ d q, (d, q) ∈ consumo_diario chart →
      (q <= qmax)%Q ∧ ((d < dia_maior_consumo chart)%Z → (q < qmax)%Q).
Proof.
  intros Hne.
  destruct (plot_consumo_por_dia_chart data Hne) as (kv & s & Hagg & ->).
  destruct (groupby_agg_spec (dt_date ∘ Data_hora) Consumo_kwh Series_sum (rows data))
    as (Hsort & _ & _).
  rewrite list_fmap_compose, Hagg in Hsort.
  destruct (argmax_from_spec kv s) as (i & [dmax qmax] & Hi & Hk & Hmax & Hfirst).
  simpl in Hk. subst dmax.
  exists (mkDailyChart (kv :: s) (argmax_from kv s)), qmax.
  split; [done|]. simpl. split; [by eapply list_elem_of_lookup_2|].
  intros d q Hin. apply list_elem_of_lookup in Hin as [j Hj]. split.
  - apply (Hmax j (d, q) Hj).
  - intros Hd. apply (Hfirst j (d, q)); [|done].
    destruct (decide (j < i)%nat) as [|Hge]; [done|]. exfalso.
    pose proof (sorted_keys_lookup (kv :: s) i j _ _ Hsort Hi Hj) as Hle.
    simpl in Hle. lia.
Qed.

Lemma dia_maior_consumo_first_max_witness :
  ∃ (chart : DailyChart) (qmax : Q),
    (plot_consumo_por_dia scenario).1 = inr chart ∧
    (dia_maior_consumo chart, qmax) ∈ consumo_diario chart ∧
    ∀ d q, (d, q) ∈ consumo_diario chart →
      (q <= qmax)%Q ∧ ((d < dia_maior_consumo chart)%Z → (q < qmax)%Q).
Proof. apply (dia_maior_consumo_first_max scenario). discriminate. Defined.

(** ** Hourly means *)

Lemma sorted_range_length (l : list Z) (lo hi : Z) :
  StronglySorted Z.lt l → Forall (λ x, (lo ≤ x ≤ hi)%Z) l →
  (Z.of_nat (length l) ≤ Z.max 0 (hi - lo + 1))%Z.
Proof.
  induction l as [|x l IH] in lo |- *; intros Hs Hall; simpl length; [lia|].
  apply StronglySorted_cons in Hs as [Hlt Hs].
  apply Forall_cons in Hall as [Hx Hall].
  assert (Forall (λ y, (x + 1 ≤ y ≤ hi)%Z) l) as Hall'.
  { apply Forall_forall. intros y Hy.
    eapply Forall_forall in Hlt; [|exact Hy].
    eapply Forall_forall in Hall; [|exact Hy]. simpl in *. lia. }
  specialize (IH (x + 1)%Z Hs Hall'). lia.
Qed.

(** X11. The hourly chart is the Series of hourly means of the rows.  For
    a consumption column of any number type and whatever [GroupBy.mean]
    computes on the values of one hour, that Series has its hours in
    strictly increasing order, so each hour occurs once; its hours are
    exactly the hours of the day of the timestamps, so they lie between 0
    and 23 and there are at most 24 entries; each entry is the reduction
    of the values of its hour, in row order, of which there is at least
    one; and the values of the hours of the Series, taken together, are
    the values of the column, each one once. *)
Theorem hourly_means_chart (data : DataFrame) {V : Type} (group_mean : list V → V)
    (consumo : list V) :
  length consumo = length (rows data) →
  (plot_consumo_horario_medio data).1 =
    inr (hourly_means Series_mean (Data_hora <$> rows data) (Consumo_kwh <$> rows data)) ∧
  StronglySorted Z.lt (hourly_means group_mean (Data_hora <$> rows data) consumo).*1 ∧
  (∀ h, h ∈ (hourly_means group_mean (Data_hora <$> rows data) consumo).*1 ↔
        ∃ r, r ∈ rows data ∧ at_hour h (Data_hora r)) ∧
  Forall (λ h, (0 ≤ h ≤ 23)%Z)
         (hourly_means group_mean (Data_hora <$> rows data) consumo).*1 ∧
  length (hourly_means group_mean (Data_hora <$> rows data) consumo) ≤ 24 ∧
  (∀ h m, (h, m) ∈ hourly_means group_mean (Data_hora <$> rows data) consumo →
          hour_values h (Data_hora <$> rows data) consumo ≠ [] ∧
          m = group_mean (hour_values h (Data_hora <$> rows data) consumo)) ∧
  concat ((λ h, hour_values h (Data_hora <$> rows data) consumo)
            <$> (hourly_means group_mean (Data_hora <$> rows data) consumo).*1)
    ≡ₚ consumo.
Proof.
  intros Hlen.
  destruct (groupby_agg_columns group_mean (dt_hour <$> (Data_hora <$> rows data)) consumo)
    as (Hsort & Hkeys & Hgroups & Hperm); [by rewrite !length_fmap|].
  fold (hourly_means group_mean (Data_hora <$> rows data) consumo)
    in Hsort, Hkeys, Hgroups, Hperm.
  assert (∀ h, h ∈ (hourly_means group_mean (Data_hora <$> rows data) consumo).*1 ↔
               ∃ r, r ∈ rows data ∧ at_hour h (Data_hora r)) as Hhours.
  { intros h. rewrite Hkeys, <- list_fmap_compose, list_elem_of_fmap. split.
    - intros (r & -> & Hr). exists r. split; [done|]. by apply dt_hour_at_hour.
    - intros (r & Hr & Hh). exists r. split; [|done]. symmetry. by apply dt_hour_at_hour. }
  assert (Forall (λ h, (0 ≤ h ≤ 23)%Z)
            (hourly_means group_mean (Data_hora <$> rows data) consumo).*1) as Hrange.
  { apply Forall_forall. intros h Hh. apply Hhours in Hh as (r & _ & [Hh _]). lia. }
  split_and!; try done.
  - pose proof (sorted_range_length _ 0 23 Hsort Hrange) as Hn.
    rewrite length_fmap in Hn. lia.
  - intros h m Hin. apply Hgroups in Hin. by rewrite hour_values_values_at in Hin.
  - etrans; [|exact Hperm]. apply reflexive_eq. f_equal.
    apply list_fmap_ext. intros i h _. symmetry. apply hour_values_values_at.
Qed.

Lemma hourly_means_chart_witness :
  (plot_consumo_horario_medio tenths).1 =
    inr (hourly_means Series_mean (Data_hora <$> rows tenths) (Consumo_kwh <$> rows tenths)) ∧
  StronglySorted Z.lt
    (hourly_means F64.group_mean (Data_hora <$> rows tenths) tenths_Consumo_kwh).*1 ∧
  (∀ h, h ∈ (hourly_means F64.group_mean (Data_hora <$> rows tenths) tenths_Consumo_kwh).*1 ↔
        ∃ r, r ∈ rows tenths ∧ at_hour h (Data_hora r)) ∧
  Forall (λ h, (0 ≤ h ≤ 23)%Z)
         (hourly_means F64.group_mean (Data_hora <$> rows tenths) tenths_Consumo_kwh).*1 ∧
  length (hourly_means F64.group_mean (Data_hora <$> rows tenths) tenths_Consumo_kwh) ≤ 24 ∧
  (∀ h m, (h, m) ∈ hourly_means F64.group_mean (Data_hora <$> rows tenths) tenths_Consumo_kwh →
          hour_values h (Data_hora <$> rows tenths) tenths_Consumo_kwh ≠ [] ∧
          m = F64.group_mean (hour_values h (Data_hora <$> rows tenths) tenths_Consumo_kwh)) ∧
  concat ((λ h, hour_values h (Data_hora <$> rows tenths) tenths_Consumo_kwh)
            <$> (hourly_means F64.group_mean (Data_hora <$> rows tenths) tenths_Consumo_kwh).*1)
    ≡ₚ tenths_Consumo_kwh.
Proof.
  apply (hourly_means_chart tenths F64.group_mean tenths_Consumo_kwh).
  reflexivity.
Defined.

(** X12. An hour that occurs in exactly one row has the consumption of
    that row as its mean. *)
Theorem hourly_mean_single (data : DataFrame) (h : Z) (r : Row) :
  filter (λ r, dt_hour (Data_hora r) = h) (rows data) = [r] →
  ∃ m, (plot_consumo_horario_medio data).1 = inr (agg Series_mean
         (groupby (dt_hour <$> (Data_hora <$> rows data)) (Consumo_kwh <$> rows data))) ∧
       (h, m) ∈ agg Series_mean
         (groupby (dt_hour <$> (Data_hora <$> rows data)) (Consumo_kwh <$> rows data)) ∧
       (m == Consumo_kwh r)%Q.
Proof.
  intros Hone.
  destruct (groupby_agg_spec (dt_hour ∘ Data_hora) Consumo_kwh Series_mean (rows data))
    as (_ & Hkeys & Hgroups).
  rewrite list_fmap_compose in Hkeys, Hgroups.
  assert (r ∈ filter (λ r, dt_hour (Data_hora r) = h) (rows data)) as Hr
    by (rewrite Hone; left).
  apply list_elem_of_filter in Hr as [Hh Hr].
  assert (h ∈ (agg Series_mean (groupby (dt_hour <$> (Data_hora <$> rows data))
                                        (Consumo_kwh <$> rows data))).*1) as Hin
    by (apply Hkeys; eauto).
  apply list_elem_of_fmap in Hin as ([h' m] & Heq & Hin). simpl in Heq. subst h'.
  exists m. split; [reflexivity|]. split; [done|].
  pose proof (Hgroups h m Hin) as Hm. unfold compose in Hm.
  rewrite Hone in Hm. rewrite Hm. unfold Series_mean. simpl. field.
Qed.

Lemma hourly_mean_single_witness :
  ∃ m, (plot_consumo_horario_medio scenario).1 = inr (agg Series_mean
         (groupby (dt_hour <$> (Data_hora <$> rows scenario)) (Consumo_kwh <$> rows scenario))) ∧
       (2%Z, m) ∈ agg Series_mean
         (groupby (dt_hour <$> (Data_hora <$> rows scenario)) (Consumo_kwh <$> rows scenario)) ∧
       (m == Consumo_kwh (mkRow (mk_timestamp 2024 1 1 2 0) 3%Q 6%Q))%Q.
Proof.
  apply (hourly_mean_single scenario 2 (mkRow (mk_timestamp 2024 1 1 2 0) 3%Q 6%Q)).
  reflexivity.
Defined.

(** ** The three plots on one frame *)

(** X13. Run one after the other on one frame, as [main] runs them, the
    three plotting functions give the charts they give on the frame as it
    was loaded: the columns that the earlier ones assign do not change a
    later chart.  If the daily plot raises, nothing follows it; otherwise
    the frame ends with both derived columns and its rows unchanged. *)
Theorem plot_all_compose (data : DataFrame) :
  (∀ e, (plot_consumo_por_dia data).1 = inl e →
        plot_all data = (inl e, (plot_consumo_por_dia data).2)) ∧
  (∀ daily, (plot_consumo_por_dia data).1 = inr daily →
     ∃ hourly bands,
       (plot_consumo_horario_medio data).1 = inr hourly ∧
       (plot_distribuicao_consumo data).1 = inr bands ∧
       plot_all data =
         (inr (daily, hourly, bands),
          {| rows := rows data;
             Dia := Some (dt_date <$> (Data_hora <$> rows data));
             Hora := Some (dt_hour <$> (Data_hora <$> rows data)) |})).
Proof.
  unfold plot_all, plot_consumo_por_dia, mbind, App_bind, eval. simpl.
  destruct (idxmax _) as [e|d]; simpl; split.
  - by intros e' [= <-].
  - intros daily [=].
  - intros e' [=].
  - intros daily [= <-]. eexists _, _. split_and!; reflexivity.
Qed.

(** ** The default date range *)

Lemma Series_min_spec (l : list Z) (m : Z) :
  Series_min l = Some m → m ∈ l ∧ ∀ x, x ∈ l → (m ≤ x)%Z.
Proof.
  induction l as [|y l IH] in m |- *; simpl; [done|].
  intros [= <-]. destruct (Series_min l) as [m'|] eqn:Hm; simpl.
  - destruct (IH m' eq_refl) as [Hin Hle]. split.
    + destruct (Z.min_spec y m') as [[_ ->]|[_ ->]]; [left|by right].
    + intros x [->|Hx]%elem_of_cons; [lia|]. specialize (Hle x Hx). lia.
  - destruct l; [|done]. split; [left|].
    intros x [->|Hx]%elem_of_cons; [lia|inversion Hx].
Qed.

Lemma Series_max_spec (l : list Z) (m : Z) :
  Series_max l = Some m → m ∈ l ∧ ∀ x, x ∈ l → (x ≤ m)%Z.
Proof.
  induction l as [|y l IH] in m |- *; simpl; [done|].
  intros [= <-]. destruct (Series_max l) as [m'|] eqn:Hm; simpl.
  - destruct (IH m' eq_refl) as [Hin Hle]. split.
    + destruct (Z.max_spec y m') as [[_ ->]|[_ ->]]; [by right|left].
    + intros x [->|Hx]%elem_of_cons; [lia|]. specialize (Hle x Hx). lia.
  - destruct l; [|done]. split; [left|].
    intros x [->|Hx]%elem_of_cons; [lia|inversion Hx].
Qed.

Lemma filter_ext_in {A : Type} (P Q : A → Prop)
    `{!∀ x, Decision (P x), !∀ x, Decision (Q x)} (l : list A) :
  (∀ x, x ∈ l → P x ↔ Q x) → filter P l = filter Q l.
Proof.
  intros Hall. induction l as [|x l IH]; [done|].
  rewrite !filter_cons.
  rewrite IH by (intros y Hy; apply Hall; by right).
  destruct (decide (P x)) as [HP|HP], (decide (Q x)) as [HQ|HQ]; try done;
    exfalso; apply (Hall x) in HP || apply (Hall x) in HQ; done || left.
Qed.

Lemma midnight_le (t : Timestamp) : (dt_date t * NS_PER_DAY ≤ t)%Z.
Proof.
  unfold dt_date. rewrite Z.mul_comm. apply Z.mul_div_le. reflexivity.
Qed.

Lemma le_midnight (t : Timestamp) (d : Date) :
  (t ≤ d * NS_PER_DAY)%Z ↔ (dt_date t < d)%Z ∨ t = (d * NS_PER_DAY)%Z.
Proof.
  unfold dt_date.
  pose proof (Z.div_mod t NS_PER_DAY ltac:(discriminate)) as Hdm.
  pose proof (Z.mod_pos_bound t NS_PER_DAY ltac:(reflexivity)) as Hmod.
  unfold NS_PER_DAY, NS_PER_HOUR, NS_PER_MINUTE in *. lia.
Qed.

(** X14. With the dates that the two pickers propose, the first day and
    the last day of the data, the lower bound leaves no row out, and the
    rows kept are those of the days before the last together with the
    readings taken at 00:00 sharp on the last day. *)
Theorem default_range_rows (data : DataFrame) (lo hi : Timestamp) :
  Series_min (Data_hora <$> rows data) = Some lo →
  Series_max (Data_hora <$> rows data) = Some hi →
  rows (display_filtered_data data
          (ATimestamp (to_datetime_scalar (ADate (dt_date lo))))
          (ATimestamp (to_datetime_scalar (ADate (dt_date hi))))) =
    filter (λ r, (dt_date (Data_hora r) < dt_date hi)%Z ∨
                 Data_hora r = (dt_date hi * NS_PER_DAY)%Z) (rows data).
Proof.
  intros Hlo Hhi. rewrite display_filtered_data_rows.
  apply Series_min_spec in Hlo as [_ Hlo].
  apply filter_ext_in. intros r Hr.
  assert (lo ≤ Data_hora r)%Z as Hle by (by apply Hlo, list_elem_of_fmap_2).
  pose proof (midnight_le lo) as Hmid.
  pose proof (le_midnight (Data_hora r) (dt_date hi)) as Hiff.
  simpl. split; [tauto|]. intros H. split; [lia|tauto].
Qed.

Lemma default_range_rows_witness :
  rows (display_filtered_data scenario
          (ATimestamp (to_datetime_scalar (ADate (dt_date (mk_timestamp 2024 1 1 2 0)))))
          (ATimestamp (to_datetime_scalar (ADate (dt_date (mk_timestamp 2024 1 2 19 0)))))) =
    filter (λ r, (dt_date (Data_hora r) < dt_date (mk_timestamp 2024 1 2 19 0))%Z ∨
                 Data_hora r = (dt_date (mk_timestamp 2024 1 2 19 0) * NS_PER_DAY)%Z)
           (rows scenario).
Proof.
  apply (default_range_rows scenario (mk_timestamp 2024 1 1 2 0) (mk_timestamp 2024 1 2 19 0));
    reflexivity.
Defined.

(** ** [main] *)

Section MainFacts.

Variable pd_to_datetime : list Cell → list (option Timestamp).
Variable pd_to_numeric : list Cell → list (option Q).
Variable st_date_input : DateField → option Date → Exception + Date.

(** X16. Without an upload the page shows nothing, and when the load
    gives no frame the page shows the one error of the load and nothing
    else: no table, no total, no chart, and no exception whatever the file
    was. *)
Theorem main_without_frame :
  main pd_to_datetime pd_to_numeric st_date_input None = ([], None) ∧
  ∀ file, (load_data pd_to_datetime pd_to_numeric (Some file)).2 = None →
          ∃ e, load_data pd_to_datetime pd_to_numeric (Some file) = ([e], None) ∧ main pd_to_datetime pd_to_numeric st_date_input (Some file) = ([StErrorBox e], None).
Proof.
  split; [done|]. intros file Hnone.
  destruct (load_data_cases pd_to_datetime pd_to_numeric file) as [[e He]|[rs Hrs]].
  - exists e. split; [done|]. unfold main. by rewrite He.
  - by rewrite Hrs in Hnone.
Qed.

(** X18. When the load gives a frame without rows the page never gets
    to a chart and always ends on an uncaught exception: after the empty
    table either a date picker raises, or the two totals are shown as zero
    and the daily plot raises its [ValueError]. *)
Theorem main_raises_without_rows (file : UploadedFile) (errors : list StError)
    (df : DataFrame) :
  load_data pd_to_datetime pd_to_numeric (Some file) = (errors, Some df) →
  rows df = [] →
  (∃ e, main pd_to_datetime pd_to_numeric st_date_input (Some file)
          = ([StDataframe []], Some e)) ∨
  main pd_to_datetime pd_to_numeric st_date_input (Some file) =
    ([StDataframe []; StWriteConsumo 0%Q; StWriteCusto 0%Q],
     Some (ValueError "attempt to get argmax of an empty sequence")).
Proof.
  intros Hload Hnil.
  destruct (load_data_cases pd_to_datetime pd_to_numeric file) as [[e H]|[rs Hrs]];
    [by rewrite H in Hload|].
  rewrite Hrs in Hload. injection Hload as <- <-. simpl in Hnil. subst rs.
  unfold main. rewrite Hrs. unfold render_tabs. simpl.
  destruct (st_date_input StartDate None) as [e|s]; [left; eauto|].
  destruct (st_date_input EndDate None) as [e|e']; [left; eauto|].
  by right.
Qed.

End MainFacts.

Lemma main_raises_without_rows_witness :
  (∃ e, main datetime_of_cells numeric_of_cells (picker jan_1 jan_2) (Some (inr blank_file))
          = ([StDataframe []], Some e)) ∨
  main datetime_of_cells numeric_of_cells (picker jan_1 jan_2) (Some (inr blank_file)) =
    ([StDataframe []; StWriteConsumo 0%Q; StWriteCusto 0%Q],
     Some (ValueError "attempt to get argmax of an empty sequence")).
Proof.
  apply (main_raises_without_rows datetime_of_cells numeric_of_cells (picker jan_1 jan_2)
           (inr blank_file) [] (frame_of_rows [])).
  - vm_compute. reflexivity.
  - reflexivity.
Defined.
